(** * QG3D backend: payment intents, webhooks and order e-mails

    A shallow embedding of [server.js] (Express + Stripe + Nodemailer).
    The three POST handlers are written in a small writer/exception monad
    that records console output, gateway calls and mail submissions in the
    order the JavaScript performs them.  The Stripe SDK, the Nodemailer
    transport, the process environment, the clock and the number
    formatting of the JavaScript engine are collected in a [Host] record.
    The earlier revision of the server, without the e-mail route, has the
    same [/create-payment-intent] and [/webhook] handlers.  The webhook
    route is also modelled with the two body parsers the application puts
    in front of its handler. *)

From Stdlib Require Import ZArith QArith Qround Qabs String Ascii List Lia.
From stdpp Require Import base option gmap strings list pretty.

(** ** JavaScript values *)

(** Numbers as [JSON.parse] yields them: a finite double, which is a
    rational, or an infinity (a literal out of range, such as [1e400],
    parses to [Infinity]).  [NaN] is not among them; where an operation can
    produce it, its result is an [option] with [None] for [NaN]. *)
Inductive JsNumber : Type :=
  | Finite (q : Q)
  | Infinity (negative : bool).

Coercion Finite : Q >-> JsNumber.
Bind Scope Q_scope with JsNumber.

(** The integral numbers: what [Math.round] yields on a number. *)
Inductive JsInteger : Type :=
  | Int (n : Z)
  | IntInfinity (negative : bool).

Coercion Int : Z >-> JsInteger.
Bind Scope Z_scope with JsInteger.

(** Primitive values as they come out of [JSON.parse] (plus [undefined] for a
    property that is not there). *)
Inductive JsPrim : Type :=
  | PUndefined
  | PNull
  | PBool (b : bool)
  | PNum (x : JsNumber)
  | PStr (s : string).

(** A parsed JSON text. *)
#[local] Unset Elimination Schemes.
Inductive Json : Type :=
  | JNull
  | JBool (b : bool)
  | JNumber (x : JsNumber)
  | JString (s : string)
  | JArray (elements : list Json)
  | JObject (members : list (string * Json)).
#[local] Set Elimination Schemes.

(** [req.body]: the bytes of the request when a raw parser has read them, a
    parsed value when the JSON parser has. *)
Inductive ReqBody : Type :=
  | Buffer (bytes : string)
  | Parsed (v : Json).

Coercion Buffer : string >-> ReqBody.

(** A flat object: string keys, primitive values. *)
Abbreviation Obj := (gmap string JsPrim).

(** Property read [o.k] on a flat object. *)
Definition get (o : Obj) (k : string) : JsPrim :=
  default PUndefined (o !! k).

Definition Qnonzero (q : Q) : bool := negb (Qeq_bool q 0).

(** [ToBoolean]. *)
Definition truthy (v : JsPrim) : bool :=
  match v with
  | PUndefined | PNull => false
  | PBool b => b
  | PNum (Finite q) => Qnonzero q
  | PNum (Infinity _) => true
  | PStr s => negb (String.eqb s EmptyString)
  end.

(** [a || b] on primitives. *)
Definition js_or (a b : JsPrim) : JsPrim := if truthy a then a else b.

Definition nl : string := String "010"%char EmptyString.
Definition dq : string := String "034"%char EmptyString.

(** Thrown values: an [Error] with its [message]. *)
Inductive JsError : Type := Err (message : string).

Definition message (e : JsError) : string := let 'Err m := e in m.

(** The [TypeError] V8 raises for [undefined.k] / [null.k]. *)
Definition cannot_read (of_what k : string) : JsError :=
  Err ("Cannot read properties of " +:+ of_what +:+ " (reading '" +:+ k +:+ "')").

(** ** Data exchanged with the collaborators *)

(** Argument of [stripe.paymentIntents.create].  [Math.round] yields an
    integral number, or [NaN] ([None]) when its argument is not a number. *)
Record IntentParams : Type := {
  ip_amount : option JsInteger;
  ip_currency : JsPrim;
  ip_automatic_payment_methods_enabled : bool;
  ip_metadata : Obj
}.

Record PaymentIntent : Type := {
  client_secret : JsPrim;
  pi_id : JsPrim
}.

(** The event returned by [stripe.webhooks.constructEvent]:
    [event.type] and [event.data.object]. *)
Record StripeEvent : Type := {
  ev_type : string;
  ev_data_object : Obj
}.

(** A Nodemailer message. *)
Record Mail : Type := {
  mail_from : string;
  mail_to : JsPrim;
  mail_subject : string;
  mail_html : string
}.

(** How a call into a collaborator completes: it returns (the promise is
    fulfilled) or it throws (the promise is rejected). *)
Inductive Completion (A : Type) : Type :=
  | Normal (a : A)
  | Throw (e : JsError).
Arguments Normal {A} a.
Arguments Throw {A} e.

Definition fulfilled {A} (c : Completion A) : bool :=
  match c with Normal _ => true | Throw _ => false end.

(** ** Observable effects *)

Inductive LogArg : Type :=
  | LVal (v : JsPrim)
  | LError (e : JsError).

Inductive Effect : Type :=
  | ConsoleLog (args : list LogArg)
  | ConsoleError (args : list LogArg)
  | GatewayCreate (p : IntentParams)
  | SendMail (m : Mail).

(** HTTP responses.  [res.json] and [res.send] answer 200 unless
    [res.status] was called first. *)
Inductive ResBody : Type :=
  | BError (error : string) (details : option string)
  | BIntent (clientSecret paymentIntentId : JsPrim)
  | BText (text : string)
  | BReceived (received : bool)
  | BEmails (success customerEmailSent adminEmailSent : bool).

Record Response : Type := {
  status : nat;
  body : ResBody
}.

Definition res_json (b : ResBody) : Response := {| status := 200; body := b |}.
Definition res_status_json (code : nat) (b : ResBody) : Response :=
  {| status := code; body := b |}.
Definition res_status_send (code : nat) (s : string) : Response :=
  {| status := code; body := BText s |}.

(** ** The effect monad *)

Module Eff.

(** A computation: the effects it performed, in order, and how it ended. *)
Definition t (A : Type) : Type := (list Effect * Completion A)%type.

Definition ret {A} (a : A) : t A := ([], Normal a).

Definition bind {A B} (m : t A) (f : A -> t B) : t B :=
  match m with
  | (tr, Normal a) => let '(tr', r) := f a in (tr ++ tr', r)
  | (tr, Throw e) => (tr, Throw e)
  end.

Definition emit (e : Effect) : t unit := ([e], Normal tt).

Definition throw {A} (e : JsError) : t A := ([], Throw e).

(** [try { m } catch (e) { h e }]. *)
Definition try_catch {A} (m : t A) (h : JsError -> t A) : t A :=
  match m with
  | (tr, Throw e) => let '(tr', r) := h e in (tr ++ tr', r)
  | _ => m
  end.

(** A value obtained from a collaborator, without an effect of its own. *)
Definition lift {A} (c : Completion A) : t A := ([], c).

Definition trace {A} (m : t A) : list Effect := fst m.
Definition result {A} (m : t A) : Completion A := snd m.

End Eff.

#[global] Instance eff_ret : MRet Eff.t := @Eff.ret.
#[global] Instance eff_bind : MBind Eff.t := fun A B f m => Eff.bind m f.

#[global] Instance completion_fmap : FMap Completion := fun A B f c =>
  match c with
  | Normal a => Normal (f a)
  | Throw e => Throw e
  end.

#[global] Instance completion_ret : MRet Completion := @Normal.
#[global] Instance completion_bind : MBind Completion := fun A B f c =>
  match c with
  | Normal a => f a
  | Throw e => Throw e
  end.

Definition console_log (args : list LogArg) : Eff.t unit :=
  Eff.emit (ConsoleLog args).
Definition console_error (args : list LogArg) : Eff.t unit :=
  Eff.emit (ConsoleError args).

(** ** The host *)

Record Host : Type := {
  (** [Number.prototype.toString] and [StringToNumber] of the engine
      ([None] is [NaN]) *)
  Number_toString : JsNumber -> string;
  Number_ofString : string -> option JsNumber;
  (** [x.toFixed(2)] *)
  Number_toFixed2 : JsNumber -> string;
  (** [String.prototype.trim] *)
  String_trim : string -> string;
  (** [process.env] *)
  env : gmap string string;
  (** [new Date().toLocaleDateString('fr-FR')] at the time of the request *)
  today : string;
  (** [stripe.paymentIntents.create] *)
  paymentIntents_create : IntentParams -> Completion PaymentIntent;
  (** [stripe.webhooks.constructEvent(body, sig, secret)] *)
  webhooks_constructEvent : ReqBody -> JsPrim -> JsPrim -> Completion StripeEvent;
  (** the strict JSON parse of [express.json()]: it throws on a text that
      is not a JSON object or array *)
  JSON_parse : string -> Completion Json;
  (** [transporter.sendMail] *)
  sendMail : Mail -> Completion unit
}.

Section Server.

Variable host : Host.

(** [ToString] on primitives, as a template literal applies it. *)
Definition to_string (v : JsPrim) : string :=
  match v with
  | PUndefined => "undefined"
  | PNull => "null"
  | PBool true => "true"
  | PBool false => "false"
  | PNum q => Number_toString host q
  | PStr s => s
  end.

(** [ToNumber] on primitives; [None] is [NaN]. *)
Definition to_number (v : JsPrim) : option JsNumber :=
  match v with
  | PUndefined => None
  | PNull => Some (Finite 0)
  | PBool true => Some (Finite 1)
  | PBool false => Some (Finite 0)
  | PNum x => Some x
  | PStr s => Number_ofString host s
  end.

(** [v < n] for a numeric literal [n]: false when [v] converts to [NaN]. *)
Definition js_lt (v : JsPrim) (n : Q) : bool :=
  match to_number v with
  | Some (Finite q) => if Qlt_le_dec q n then true else false
  | Some (Infinity negative) => negative
  | None => false
  end.

(** [Math.round] on a number: the nearest integer, ties towards plus
    infinity; an infinity is left as it is. *)
Definition round_number (x : JsNumber) : JsInteger :=
  match x with
  | Finite q => Int (Qfloor (q + (1 # 2)))
  | Infinity negative => IntInfinity negative
  end.

(** [Math.round(v)]; [None] is [NaN]. *)
Definition Math_round (v : JsPrim) : option JsInteger :=
  match to_number v with
  | Some x => Some (round_number x)
  | None => None
  end.

(** [process.env.K], [undefined] when unset. *)
Definition process_env (k : string) : JsPrim :=
  match env host !! k with
  | Some s => PStr s
  | None => PUndefined
  end.

(** *** POST /create-payment-intent *)

(** The parsed JSON body.  [pb_metadata] is [None] when the key is absent. *)
Record PaymentBody : Type := {
  pb_amount : JsPrim;
  pb_currency : JsPrim;
  pb_metadata : option Obj
}.

Definition min_amount_message : string := "Le montant minimum est de 0.50€".

(** [const { amount, currency = 'eur', metadata = {} } = req.body]:
    a default applies only to [undefined]. *)
Definition currency_of (b : PaymentBody) : JsPrim :=
  match pb_currency b with
  | PUndefined => PStr "eur"
  | c => c
  end.

Definition metadata_of (b : PaymentBody) : Obj :=
  default ∅ (pb_metadata b).

(** [!amount || amount < 50] *)
Definition amount_rejected (amount : JsPrim) : bool :=
  negb (truthy amount) || js_lt amount 50.

(** [{ ...metadata, integration_source: 'qg3d-website' }] *)
Definition tag_metadata (metadata : Obj) : Obj :=
  <["integration_source" := PStr "qg3d-website"]> metadata.

Definition intent_params (b : PaymentBody) : IntentParams :=
  {| ip_amount := Math_round (pb_amount b);
     ip_currency := currency_of b;
     ip_automatic_payment_methods_enabled := true;
     ip_metadata := tag_metadata (metadata_of b) |}.

Definition create_payment_intent (b : PaymentBody) : Eff.t Response :=
  Eff.try_catch
    (if amount_rejected (pb_amount b) then
       Eff.ret (res_status_json 400 (BError min_amount_message None))
     else
       Eff.emit (GatewayCreate (intent_params b));;
       paymentIntent ← Eff.lift (paymentIntents_create host (intent_params b));
       Eff.ret (res_json (BIntent (client_secret paymentIntent)
                                  (pi_id paymentIntent))))
    (fun error =>
       console_error [LVal (PStr "Erreur création PaymentIntent:"); LError error];;
       Eff.ret (res_status_json 500
                  (BError "Erreur lors de la création du paiement"
                          (Some (message error))))).

(** *** POST /webhook *)

(** The request as the handler reads it: [req.body], which is what the
    body parsers that ran before the handler left there, and
    [req.headers['stripe-signature']] ([undefined] when there is none). *)
Record WebhookRequest : Type := {
  wh_body : ReqBody;
  wh_stripe_signature : JsPrim
}.

(** [switch (event.type) { ... }] *)
Definition dispatch_event (event : StripeEvent) : Eff.t unit :=
  if String.eqb (ev_type event) "payment_intent.succeeded" then
    let paymentIntent := ev_data_object event in
    console_log [LVal (PStr "✅ Paiement réussi:"); LVal (get paymentIntent "id")]
  else if String.eqb (ev_type event) "payment_intent.payment_failed" then
    let failedPayment := ev_data_object event in
    console_log [LVal (PStr "❌ Paiement échoué:"); LVal (get failedPayment "id")]
  else
    console_log [LVal (PStr ("Événement non géré: " +:+ ev_type event))].

Definition webhook (req : WebhookRequest) : Eff.t Response :=
  let sig := wh_stripe_signature req in
  let webhookSecret := process_env "STRIPE_WEBHOOK_SECRET" in
  match webhooks_constructEvent host (wh_body req) sig webhookSecret with
  | Throw err =>
      console_error [LVal (PStr "Webhook signature verification failed:");
                     LVal (PStr (message err))];;
      mret (res_status_send 400 ("Webhook Error: " +:+ message err))
  | Normal event =>
      dispatch_event event;;
      mret (res_json (BReceived true))
  end.

(** *** POST /send-order-emails *)

(** [orderData], for an order whose parts, where present, have the shape
    the storefront sends: [items] an array of flat objects and
    [shippingAddress] a flat object.  [od_items] and [od_shippingAddress]
    are [None] when the key is absent; a part that is present with another
    shape ([items] not an array or holding [null], [shippingAddress]
    [null]) is outside this record. *)
Record OrderData : Type := {
  od_orderNumber : JsPrim;
  od_customerEmail : JsPrim;
  od_items : option (list Obj);
  od_shippingAddress : option Obj;
  od_total : JsPrim;
  od_paymentId : JsPrim;
  od_orderNotes : JsPrim
}.

(** [item => `${item.quantity}x ${item.name} - ${item.price}€`] *)
Definition item_line (item : Obj) : string :=
  to_string (get item "quantity") +:+ "x " +:+ to_string (get item "name")
    +:+ " - " +:+ to_string (get item "price") +:+ "€".

(** [orderData.items.map(...).join('\n')] *)
Definition items_list (o : OrderData) : Completion string :=
  match od_items o with
  | Some items => Normal (String.concat nl (map item_line items))
  | None => Throw (cannot_read "undefined" "map")
  end.

Definition address_of (o : OrderData) : Completion Obj :=
  match od_shippingAddress o with
  | Some addr => Normal addr
  | None => Throw (cannot_read "undefined" "firstName")
  end.

(** The address block, trimmed. *)
Definition shipping_block (addr : Obj) : string :=
  String_trim host (String.concat nl
    [ EmptyString;
      to_string (get addr "firstName") +:+ " " +:+ to_string (get addr "lastName");
      to_string (get addr "street");
      to_string (get addr "zip") +:+ " " +:+ to_string (get addr "city");
      to_string (get addr "country");
      "Téléphone: " +:+ to_string (get addr "phone");
      "        " ]).

Definition shipping_address (o : OrderData) : Completion string :=
  addr ← address_of o;
  mret (shipping_block addr).

(** [orderData.total.toFixed(2)] *)
Definition total_toFixed2 (o : OrderData) : Completion string :=
  match od_total o with
  | PNum q => Normal (Number_toFixed2 host q)
  | PUndefined => Throw (cannot_read "undefined" "toFixed")
  | PNull => Throw (cannot_read "null" "toFixed")
  | PBool _ | PStr _ => Throw (Err "orderData.total.toFixed is not a function")
  end.

(** [process.env.FRONTEND_URL || 'http://localhost:8000'] *)
Definition frontend_url : string :=
  to_string (js_or (process_env "FRONTEND_URL") (PStr "http://localhost:8000")).

(** [orderData.orderNotes ? `<h3>Notes</h3><p>${orderData.orderNotes}</p>` : ''] *)
Definition notes_section (o : OrderData) : string :=
  if truthy (od_orderNotes o)
  then "<h3>Notes</h3><p>" +:+ to_string (od_orderNotes o) +:+ "</p>"
  else EmptyString.

Definition customer_html_lines (o : OrderData) (addr : Obj)
    (total2 itemsList shippingAddress : string) : list string :=
    [ EmptyString;
      "<!DOCTYPE html>";
      "<html>";
      "<head>";
      "    <meta charset=" +:+ dq +:+ "UTF-8" +:+ dq +:+ ">";
      "    <style>";
      "        body { font-family: Arial, sans-serif; line-height: 1.6; color: #333; }";
      "        .container { max-width: 600px; margin: 0 auto; padding: 20px; }";
      "        .header { background-color: #2c2c2c; color: white; padding: 20px; text-align: center; }";
      "        .content { padding: 20px; background-color: #f5f5f5; }";
      "        .order-details { background: white; padding: 15px; margin: 20px 0; border-left: 4px solid #ff5757; }";
      "        .footer { text-align: center; padding: 20px; font-size: 12px; color: #666; }";
      "        .button { display: inline-block; padding: 12px 30px; background-color: #ff5757; color: white; text-decoration: none; border-radius: 5px; margin: 20px 0; }";
      "    </style>";
      "</head>";
      "<body>";
      "    <div class=" +:+ dq +:+ "container" +:+ dq +:+ ">";
      "        <div class=" +:+ dq +:+ "header" +:+ dq +:+ ">";
      "            <h1>QG3D</h1>";
      "            <p>Merci pour votre commande !</p>";
      "        </div>";
      "        ";
      "        <div class=" +:+ dq +:+ "content" +:+ dq +:+ ">";
      "            <h2>Bonjour " +:+ to_string (get addr "firstName") +:+ ",</h2>";
      "            <p>Nous avons bien reçu votre commande et nous vous remercions de votre confiance.</p>";
      "            ";
      "            <div class=" +:+ dq +:+ "order-details" +:+ dq +:+ ">";
      "                <h3>Détails de la commande</h3>";
      "                <p><strong>N° de commande :</strong> " +:+ to_string (od_orderNumber o) +:+ "</p>";
      "                <p><strong>Date :</strong> " +:+ today host +:+ "</p>";
      "                <p><strong>Montant total :</strong> " +:+ total2 +:+ "€</p>";
      "                ";
      "                <h4>Articles commandés :</h4>";
      "                <pre>" +:+ itemsList +:+ "</pre>";
      "                ";
      "                <h4>Adresse de livraison :</h4>";
      "                <pre>" +:+ shippingAddress +:+ "</pre>";
      "            </div>";
      "            ";
      "            <p>Nous préparons votre commande avec soin. Vous recevrez un email de confirmation d'expédition dès que votre colis sera en route.</p>";
      "            ";
      "            <a href=" +:+ dq +:+ frontend_url +:+ "/profile.html" +:+ dq +:+ " class=" +:+ dq +:+ "button" +:+ dq +:+ ">Suivre ma commande</a>";
      "        </div>";
      "        ";
      "        <div class=" +:+ dq +:+ "footer" +:+ dq +:+ ">";
      "            <p>© 2024 QG3D - Tous droits réservés</p>";
      "            <p>Pour toute question, contactez-nous à qg3dprint@gmail.com</p>";
      "        </div>";
      "    </div>";
      "</body>";
      "</html>";
      "            " ].

Definition admin_html_lines (o : OrderData) (addr : Obj)
    (total2 itemsList shippingAddress : string) : list string :=
    [ EmptyString;
      "<!DOCTYPE html>";
      "<html>";
      "<head>";
      "    <meta charset=" +:+ dq +:+ "UTF-8" +:+ dq +:+ ">";
      "    <style>";
      "        body { font-family: Arial, sans-serif; line-height: 1.6; color: #333; }";
      "        .container { max-width: 600px; margin: 0 auto; padding: 20px; }";
      "        .header { background-color: #2c2c2c; color: white; padding: 20px; }";
      "        .alert { background-color: #ff5757; color: white; padding: 15px; margin: 10px 0; border-radius: 5px; }";
      "        .details { background: #f5f5f5; padding: 15px; margin: 10px 0; }";
      "    </style>";
      "</head>";
      "<body>";
      "    <div class=" +:+ dq +:+ "container" +:+ dq +:+ ">";
      "        <div class=" +:+ dq +:+ "header" +:+ dq +:+ ">";
      "            <h1>🔔 Nouvelle Commande QG3D</h1>";
      "        </div>";
      "        ";
      "        <div class=" +:+ dq +:+ "alert" +:+ dq +:+ ">";
      "            <strong>Commande n°" +:+ to_string (od_orderNumber o) +:+ "</strong> - " +:+ total2 +:+ "€";
      "        </div>";
      "        ";
      "        <div class=" +:+ dq +:+ "details" +:+ dq +:+ ">";
      "            <h3>Informations Client</h3>";
      "            <p><strong>Nom :</strong> " +:+ to_string (get addr "firstName") +:+ " " +:+ to_string (get addr "lastName") +:+ "</p>";
      "            <p><strong>Email :</strong> " +:+ to_string (od_customerEmail o) +:+ "</p>";
      "            <p><strong>Téléphone :</strong> " +:+ to_string (get addr "phone") +:+ "</p>";
      "            ";
      "            <h3>Articles commandés</h3>";
      "            <pre>" +:+ itemsList +:+ "</pre>";
      "            ";
      "            <h3>Adresse de livraison</h3>";
      "            <pre>" +:+ shippingAddress +:+ "</pre>";
      "            ";
      "            <h3>Informations de paiement</h3>";
      "            <p><strong>ID Paiement Stripe :</strong> " +:+ to_string (js_or (od_paymentId o) (PStr "N/A")) +:+ "</p>";
      "            <p><strong>Montant :</strong> " +:+ total2 +:+ "€</p>";
      "            ";
      "            " +:+ notes_section o;
      "        </div>";
      "        ";
      "        <p><a href=" +:+ dq +:+ frontend_url +:+ "/admin.html" +:+ dq +:+ ">Accéder à l'interface admin</a></p>";
      "    </div>";
      "</body>";
      "</html>";
      "            " ].

Definition customer_mail (o : OrderData) (addr : Obj)
    (total2 itemsList shippingAddress : string) : Mail :=
  {| mail_from := dq +:+ "QG3D" +:+ dq +:+ " <qg3dprint@gmail.com>";
     mail_to := od_customerEmail o;
     mail_subject := "Confirmation de commande #" +:+ to_string (od_orderNumber o);
     mail_html := String.concat nl
       (customer_html_lines o addr total2 itemsList shippingAddress) |}.

Definition admin_mail (o : OrderData) (addr : Obj)
    (total2 itemsList shippingAddress : string) : Mail :=
  {| mail_from := dq +:+ "QG3D Notifications" +:+ dq +:+ " <qg3dprint@gmail.com>";
     mail_to := PStr "qg3dprint@gmail.com";
     mail_subject := "🔔 Nouvelle commande #" +:+ to_string (od_orderNumber o);
     mail_html := String.concat nl
       (admin_html_lines o addr total2 itemsList shippingAddress) |}.

(** The object literals [customerEmail] and [adminEmail]: evaluating one
    reads [orderData.shippingAddress] and calls [orderData.total.toFixed]. *)
Definition customerEmail (o : OrderData) (itemsList shippingAddress : string)
    : Completion Mail :=
  addr ← address_of o;
  total2 ← total_toFixed2 o;
  mret (customer_mail o addr total2 itemsList shippingAddress).

Definition adminEmail (o : OrderData) (itemsList shippingAddress : string)
    : Completion Mail :=
  addr ← address_of o;
  total2 ← total_toFixed2 o;
  mret (admin_mail o addr total2 itemsList shippingAddress).

(** The two messages of an order, or the exception raised while building
    them. *)
Definition compose (o : OrderData) : Completion (Mail * Mail) :=
  itemsList ← items_list o;
  shippingAddress ← shipping_address o;
  customer ← customerEmail o itemsList shippingAddress;
  admin ← adminEmail o itemsList shippingAddress;
  mret (customer, admin).

(** [Promise.allSettled([sendMail(a), sendMail(b)])]: both messages are
    handed to the transport, then both outcomes are collected. *)
Definition allSettled_sendMail (a b : Mail)
    : Eff.t (Completion unit * Completion unit) :=
  Eff.emit (SendMail a);;
  Eff.emit (SendMail b);;
  mret (sendMail host a, sendMail host b).

Definition sent_label (ok : bool) : JsPrim :=
  if ok then PStr "Envoyé" else PStr "Échoué".

(** The parsed JSON body; [None] when [orderData] is absent. *)
Record OrderBody : Type := { ob_orderData : option OrderData }.

Definition send_order_emails (b : OrderBody) : Eff.t Response :=
  Eff.try_catch
    (match ob_orderData b with
     | None =>
         mret (res_status_json 400 (BError "Données de commande manquantes" None))
     | Some orderData =>
         console_log [LVal (PStr "📧 Envoi des emails pour commande:");
                      LVal (od_orderNumber orderData)];;
         '(customer, admin) ← Eff.lift (compose orderData);
         results ← allSettled_sendMail customer admin;
         let customerSuccess := fulfilled results.1 in
         let adminSuccess := fulfilled results.2 in
         console_log [LVal (PStr "✅ Email client:"); LVal (sent_label customerSuccess)];;
         console_log [LVal (PStr "✅ Email admin:"); LVal (sent_label adminSuccess)];;
         mret (res_json (BEmails true customerSuccess adminSuccess))
     end)
    (fun error =>
       console_error [LVal (PStr "❌ Erreur envoi emails:"); LError error];;
       mret (res_status_json 500
               (BError "Erreur lors de l'envoi des emails" (Some (message error))))).

End Server.

(** ** A test host

    Used to run the handlers on concrete requests.  Integers print in
    decimal, [toFixed(2)] rounds the hundredths half away from zero, [trim]
    strips ASCII white space.  The test gateway accepts any integer amount;
    the test signature scheme accepts the header [secret:body] over the raw
    bytes and, like the gateway's library, refuses a body that is already
    parsed; the test transport delivers to the operator's mailbox only. *)
Module TestHost.

Definition is_space (c : ascii) : bool :=
  let n := nat_of_ascii c in
  (n =? 32)%nat || ((9 <=? n)%nat && (n <=? 13)%nat).

Fixpoint trim_start (s : string) : string :=
  match s with
  | String c s' => if is_space c then trim_start s' else s
  | EmptyString => EmptyString
  end.

Fixpoint trim_end (s : string) : string :=
  match s with
  | String c s' =>
      match trim_end s' with
      | EmptyString => if is_space c then EmptyString else String c EmptyString
      | r => String c r
      end
  | EmptyString => EmptyString
  end.

Definition trim (s : string) : string := trim_end (trim_start s).

Definition toString (x : JsNumber) : string :=
  match x with
  | Finite q =>
      if Qeq_bool (inject_Z (Qfloor q)) q then pretty (Qfloor q)
      else pretty (Qnum q) +:+ "/" +:+ pretty (Zpos (Qden q))
  | Infinity false => "Infinity"
  | Infinity true => "-Infinity"
  end.

Definition two_digits (n : Z) : string :=
  if (n <? 10)%Z then "0" +:+ pretty n else pretty n.

Definition toFixed2 (x : JsNumber) : string :=
  match x with
  | Finite q =>
      let n := Qfloor (Qabs q * 100 + (1 # 2)) in
      (if Qlt_le_dec q 0 then "-" else EmptyString)
        +:+ pretty (n / 100)%Z +:+ "." +:+ two_digits (n mod 100)%Z
  | Infinity false => "Infinity"
  | Infinity true => "-Infinity"
  end.

Definition ofString (s : string) : option JsNumber := None.

Definition create (p : IntentParams) : Completion PaymentIntent :=
  match ip_amount p with
  | Some (Int _) =>
      Normal {| client_secret := PStr "pi_1_secret_2"; pi_id := PStr "pi_1" |}
  | Some (IntInfinity _) => Throw (Err "Invalid integer: Infinity")
  | None => Throw (Err "Invalid integer: NaN")
  end.

(** The test wire format: an event of type [t] travels as [{t}]. *)
Fixpoint strip_close (s : string) : option string :=
  match s with
  | EmptyString => None
  | String c EmptyString => if Ascii.eqb c "}" then Some EmptyString else None
  | String c r => String c <$> strip_close r
  end.

Definition unbrace (s : string) : option string :=
  match s with
  | String c r => if Ascii.eqb c "{" then strip_close r else None
  | EmptyString => None
  end.

Definition parse (text : string) : Completion Json :=
  match unbrace text with
  | Some t => Normal (JObject [("type", JString t)])
  | None => Throw (Err "Unexpected token in JSON at position 0")
  end.

Definition constructEvent (body : ReqBody) (sig secret : JsPrim)
    : Completion StripeEvent :=
  match body with
  | Parsed _ =>
      Throw (Err "Webhook payload must be provided as a string or a Buffer instance representing the _raw_ request body. Payload was provided as a parsed JavaScript object instead.")
  | Buffer bytes =>
      match sig, secret with
      | PStr s, PStr k =>
          if String.eqb s (k +:+ ":" +:+ bytes)
          then match unbrace bytes with
               | Some t => Normal {| ev_type := t;
                                     ev_data_object := {[ "id" := PStr "pi_1" ]} |}
               | None => Throw (Err "Unexpected token in JSON at position 0")
               end
          else Throw (Err "No signatures found matching the expected signature for payload.")
      | _, _ => Throw (Err "No stripe-signature header value was provided.")
      end
  end.

Definition deliver (m : Mail) : Completion unit :=
  match mail_to m with
  | PStr "qg3dprint@gmail.com" => Normal tt
  | _ => Throw (Err "No recipients defined")
  end.

Definition host : Host :=
  {| Number_toString := toString;
     Number_ofString := ofString;
     Number_toFixed2 := toFixed2;
     String_trim := trim;
     env := {[ "STRIPE_WEBHOOK_SECRET" := "whsec_test" ]};
     today := "02/11/2026";
     paymentIntents_create := create;
     webhooks_constructEvent := constructEvent;
     JSON_parse := parse;
     sendMail := deliver |}.

Definition vase : Obj :=
  {[ "name" := PStr "Vase"; "quantity" := PNum 2; "price" := PNum 12 ]}.
Definition hook : Obj :=
  {[ "name" := PStr "Crochet"; "quantity" := PNum 10; "price" := PNum 3 ]}.

Definition address : Obj :=
  {[ "firstName" := PStr "Ada"; "lastName" := PStr "Martin";
     "street" := PStr "1 rue Haute"; "zip" := PStr "75001";
     "city" := PStr "Paris"; "country" := PStr "France";
     "phone" := PStr "0102030405" ]}.

Definition order : OrderData :=
  {| od_orderNumber := PStr "QG-17";
     od_customerEmail := PStr "ada@example.org";
     od_items := Some [vase; hook];
     od_shippingAddress := Some address;
     od_total := PNum (54 # 1);
     od_paymentId := PStr "pi_1";
     od_orderNotes := PUndefined |}.

Definition order_body : OrderBody := {| ob_orderData := Some order |}.

(** An item that follows the data model of the specification: its price
    is under [unitPrice]. *)
Definition vase_unitPrice : Obj :=
  {[ "name" := PStr "Vase"; "quantity" := PNum 2; "unitPrice" := PNum 12 ]}.

Definition order_unitPrice : OrderData :=
  {| od_orderNumber := PStr "QG-18";
     od_customerEmail := PStr "ada@example.org";
     od_items := Some [vase_unitPrice];
     od_shippingAddress := Some address;
     od_total := PNum (24 # 1);
     od_paymentId := PStr "pi_2";
     od_orderNotes := PUndefined |}.

Definition body_49_5 : PaymentBody :=
  {| pb_amount := PNum (99 # 2); pb_currency := PUndefined; pb_metadata := None |}.

Definition body_50_5 : PaymentBody :=
  {| pb_amount := PNum (101 # 2); pb_currency := PUndefined; pb_metadata := None |}.

(** The amount of the body [{"amount": 1e400}]. *)
Definition body_infinity : PaymentBody :=
  {| pb_amount := PNum (Infinity false); pb_currency := PUndefined;
     pb_metadata := None |}.


Definition paid : WebhookRequest :=
  {| wh_body := "{payment_intent.succeeded}";
     wh_stripe_signature := PStr "whsec_test:{payment_intent.succeeded}" |}.

Definition refunded : WebhookRequest :=
  {| wh_body := "{charge.refunded}";
     wh_stripe_signature := PStr "whsec_test:{charge.refunded}" |}.

(** The caller tries to set the tag itself. *)
Definition caller_metadata : Obj :=
  {[ "cart" := PStr "c-42"; "integration_source" := PStr "elsewhere" ]}.

Definition body_tagged : PaymentBody :=
  {| pb_amount := PNum 1200; pb_currency := PStr "usd";
     pb_metadata := Some caller_metadata |}.

End TestHost.

(** ** Observations on runs *)

(** The calls made to [stripe.paymentIntents.create] in a run, in order. *)
Definition gateway_calls (tr : list Effect) : list IntentParams :=
  omap (fun e => match e with GatewayCreate p => Some p | _ => None end) tr.

(** What [console.log] printed in a run.  In [/webhook] only the event
    switch prints there. *)
Definition console_logs (tr : list Effect) : list (list LogArg) :=
  omap (fun e => match e with ConsoleLog a => Some a | _ => None end) tr.

(** The messages handed to [transporter.sendMail] in a run, in order. *)
Definition sent_mails (tr : list Effect) : list Mail :=
  omap (fun e => match e with SendMail m => Some m | _ => None end) tr.

(** [x >= n] and [x < n] between a number and a rational, and [r >= n]
    between an integral number and an integer. *)
Definition number_ge (x : JsNumber) (n : Q) : Prop :=
  match x with
  | Finite q => (n <= q)%Q
  | Infinity negative => negative = false
  end.

Definition number_lt (x : JsNumber) (n : Q) : Prop :=
  match x with
  | Finite q => (q < n)%Q
  | Infinity negative => negative = true
  end.

Definition integer_ge (r : JsInteger) (n : Z) : Prop :=
  match r with
  | Int m => (n <= m)%Z
  | IntInfinity negative => negative = false
  end.

(** The case of the event switch an event type selects. *)
Inductive EventKind : Type :=
  | payment_succeeded
  | payment_failed
  | other (rawType : string).

Definition event_kind (rawType : string) : EventKind :=
  if String.eqb rawType "payment_intent.succeeded" then payment_succeeded
  else if String.eqb rawType "payment_intent.payment_failed" then payment_failed
  else other rawType.

(** [{ ...orderData, paymentId: p }] and [{ ...orderData, orderNotes: n }] *)
Definition with_paymentId (o : OrderData) (p : JsPrim) : OrderData :=
  {| od_orderNumber := od_orderNumber o;
     od_customerEmail := od_customerEmail o;
     od_items := od_items o;
     od_shippingAddress := od_shippingAddress o;
     od_total := od_total o;
     od_paymentId := p;
     od_orderNotes := od_orderNotes o |}.

Definition with_orderNotes (o : OrderData) (n : JsPrim) : OrderData :=
  {| od_orderNumber := od_orderNumber o;
     od_customerEmail := od_customerEmail o;
     od_items := od_items o;
     od_shippingAddress := od_shippingAddress o;
     od_total := od_total o;
     od_paymentId := od_paymentId o;
     od_orderNotes := n |}.

(** [s.split('\n')] *)
Fixpoint split_lines (s : string) : list string :=
  match s with
  | EmptyString => [EmptyString]
  | String c s' =>
      if Ascii.eqb c "010" then EmptyString :: split_lines s'
      else match split_lines s' with
           | l :: ls => String c l :: ls
           | [] => [String c EmptyString]
           end
  end.

Fixpoint has_newline (s : string) : bool :=
  match s with
  | EmptyString => false
  | String c s' => Ascii.eqb c "010" || has_newline s'
  end.

(** [hay.includes(needle)] *)
Definition contains (needle hay : string) : Prop :=
  exists pre post, hay = pre +:+ needle +:+ post.

(** The text of the admin message before and after the notes: the first 39
    lines of the template and the indentation of the 40th, and what follows
    that line. *)
Definition admin_before (host : Host) (o : OrderData) (addr : Obj)
    (t il sb : string) : string :=
  String.concat nl (take 39 (admin_html_lines host o addr t il sb) ++ ["            "]).

Definition admin_after (host : Host) (o : OrderData) (addr : Obj)
    (t il sb : string) : string :=
  nl +:+ String.concat nl (drop 40 (admin_html_lines host o addr t il sb)).

(** ** The rest of the process *)

Section Process.

Variable host : Host.

(** [v === 'text'] against a string literal. *)
Definition strict_equal_string (v : JsPrim) (text : string) : bool :=
  match v with
  | PStr s => String.eqb s text
  | _ => false
  end.

(** The callback given to [transporter.verify]; [error] is [None] when the
    transport is ready. *)
Definition transporter_verify_callback (error : option JsError) : Eff.t unit :=
  match error with
  | Some e => console_error [LVal (PStr "❌ Erreur configuration email:"); LError e]
  | None => console_log [LVal (PStr "✅ Serveur email prêt à envoyer des messages")]
  end.

(** The error handling middleware, [app.use((err, req, res, next) => ...)].
    A [details] that is [undefined] is left out of the JSON. *)
Definition error_middleware (err : JsError) : Eff.t Response :=
  console_error [LVal (PStr "Erreur serveur:"); LError err];;
  mret (res_status_json 500
          (BError "Erreur interne du serveur"
                  (if strict_equal_string (process_env host "NODE_ENV") "development"
                   then Some (message err) else None))).

(** *** The body parsers in front of [/webhook]

    [app.use(express.json())] is registered for every route, before
    [app.post('/webhook', express.raw({type: 'application/json'}), ...)].
    Both are body-parser middlewares (version 1, as in Express 4) for the
    content type [application/json]; the [cors] middleware in front of them
    lets a POST through unchanged. *)

(** A request to [/webhook]: whether its content type is
    [application/json], the bytes of its body ([None] when it has none), and
    its [stripe-signature] header. *)
Record HttpRequest : Type := {
  http_json : bool;
  http_payload : option string;
  http_stripe_signature : JsPrim
}.

(** [req.body] and the flag [req._body] a parser sets once it has read the
    body. *)
Record BodyState : Type := {
  req_body : ReqBody;
  req_body_read : bool
}.

(** [req.body = req.body || {}], nothing read yet. *)
Definition no_body : BodyState :=
  {| req_body := Parsed (JObject []); req_body_read := false |}.

(** A body-parser middleware for [application/json]: it passes when a
    parser has read the body already, when there is no body and when the
    content type is another; otherwise it reads the body and stores what
    [parse] makes of it, or hands the error of [parse] to the error
    middleware. *)
Definition body_parser (parse : string -> Completion ReqBody)
    (r : HttpRequest) (st : BodyState) : Completion BodyState :=
  if req_body_read st then Normal st
  else match http_payload r with
       | None => Normal st
       | Some bytes =>
           if http_json r then
             body ← parse bytes;
             mret {| req_body := body; req_body_read := true |}
           else Normal st
       end.

(** [express.json()]: an empty body is [{}]. *)
Definition express_json : HttpRequest -> BodyState -> Completion BodyState :=
  body_parser (fun bytes =>
    if String.eqb bytes EmptyString then Normal (Parsed (JObject []))
    else Parsed <$> JSON_parse host bytes).

(** [express.raw({type: 'application/json'})] *)
Definition express_raw : HttpRequest -> BodyState -> Completion BodyState :=
  body_parser (fun bytes => Normal (Buffer bytes)).

(** The route [/webhook] as the application wires it. *)
Definition webhook_route (r : HttpRequest) : Eff.t Response :=
  match express_json r no_body with
  | Throw err => error_middleware err
  | Normal st =>
      match express_raw r st with
      | Throw err => error_middleware err
      | Normal st' =>
          webhook host {| wh_body := req_body st';
                          wh_stripe_signature := http_stripe_signature r |}
      end
  end.

(** [const PORT = process.env.PORT || 3000] *)
Definition PORT : JsPrim := js_or (process_env host "PORT") (PNum 3000).

(** The callback given to [app.listen]. *)
Definition listening : Eff.t unit :=
  console_log [LVal (PStr ("🚀 Serveur QG3D démarré sur le port " +:+ to_string host PORT))];;
  console_log [LVal (PStr ("📡 Environment: "
     +:+ to_string host (js_or (process_env host "NODE_ENV") (PStr "development"))))];;
  console_log [LVal (PStr ("💳 Stripe: "
     +:+ (if truthy (process_env host "STRIPE_SECRET_KEY")
          then "Configuré ✅" else "Non configuré ⚠️")))].

End Process.

(** The gateway's library verifies a signature over the bytes of the body:
    [constructEvent] throws on a payload that is a parsed value. *)
Definition sdk_requires_raw_body (host : Host) : Prop :=
  forall v sig secret, exists e,
    webhooks_constructEvent host (Parsed v) sig secret = Throw e.

(** ** More test data *)
Module TestCases.

(** The test host with a transport that is down. *)
Definition host_down : Host :=
  {| Number_toString := TestHost.toString;
     Number_ofString := TestHost.ofString;
     Number_toFixed2 := TestHost.toFixed2;
     String_trim := TestHost.trim;
     env := {[ "STRIPE_WEBHOOK_SECRET" := "whsec_test" ]};
     today := "02/11/2026";
     paymentIntents_create := TestHost.create;
     webhooks_constructEvent := TestHost.constructEvent;
     JSON_parse := TestHost.parse;
     sendMail := fun _ => Throw (Err "connect ECONNREFUSED") |}.

(** The test host as configured in production. *)
Definition host_production : Host :=
  {| Number_toString := TestHost.toString;
     Number_ofString := TestHost.ofString;
     Number_toFixed2 := TestHost.toFixed2;
     String_trim := TestHost.trim;
     env := {[ "NODE_ENV" := "production"; "PORT" := "8080";
               "FRONTEND_URL" := "https://qg3d.example" ]};
     today := "02/11/2026";
     paymentIntents_create := TestHost.create;
     webhooks_constructEvent := TestHost.constructEvent;
     JSON_parse := TestHost.parse;
     sendMail := TestHost.deliver |}.

(** A delivery of the gateway: JSON content type, and a signature that
    verifies over the bytes of the body. *)
Definition delivery : HttpRequest :=
  {| http_json := true;
     http_payload := Some "{payment_intent.succeeded}";
     http_stripe_signature := PStr "whsec_test:{payment_intent.succeeded}" |}.

(** An amount that is not a number. *)
Definition body_text_amount : PaymentBody :=
  {| pb_amount := PStr "douze"; pb_currency := PUndefined; pb_metadata := None |}.

Definition body_1200 : PaymentBody :=
  {| pb_amount := PNum (inject_Z 1200); pb_currency := PUndefined; pb_metadata := None |}.

(** An order without [items], without [shippingAddress] and without
    [total]. *)
Definition order_bare : OrderData :=
  {| od_orderNumber := PStr "QG-19";
     od_customerEmail := PStr "ada@example.org";
     od_items := None;
     od_shippingAddress := None;
     od_total := PUndefined;
     od_paymentId := PUndefined;
     od_orderNotes := PUndefined |}.

(** An item with a key the template does not read. *)
Definition vase_sku : Obj := <["sku" := PStr "V-1"]> TestHost.vase.

End TestCases.

(** ** Payment intents *)

Section PaymentIntentProperties.

Variable host : Host.

Lemma amount_rejected_num (q : Q) :
  amount_rejected host (PNum q) = false <-> (50 <= q)%Q.
Proof.
  unfold amount_rejected, js_lt, truthy, Qnonzero; cbn [to_number].
  destruct (Qlt_le_dec q 50) as [Hlt | Hge].
  - rewrite orb_true_r. split; [discriminate |].
    intros Hge. exfalso. exact (Qlt_not_le _ _ Hlt Hge).
  - split; [intros _; exact Hge | intros _].
    rewrite orb_false_r, negb_involutive.
    destruct (Qeq_bool q 0) eqn:E; [| reflexivity].
    apply Qeq_bool_iff in E. rewrite E in Hge.
    exfalso. revert Hge. unfold Qle; cbn. lia.
Qed.

Lemma round_ge_50 (q : Q) : (50 <= q)%Q -> (50 <= Qfloor (q + (1 # 2)))%Z.
Proof.
  intros Hge.
  change 50%Z with (Qfloor (inject_Z 50)).
  apply Qfloor_resp_le.
  apply Qle_trans with q; [exact Hge |].
  rewrite <- (Qplus_0_r q) at 1.
  apply Qplus_le_r. unfold Qle; cbn; lia.
Qed.

(** A rejected request: 400, the minimum-amount message, nothing else. *)
Lemma create_payment_intent_rejected (b : PaymentBody) :
  amount_rejected host (pb_amount b) = true ->
  create_payment_intent host b
  = ([], Normal {| status := 400; body := BError min_amount_message None |}).
Proof. intros H. unfold create_payment_intent. rewrite H. reflexivity. Qed.

(** An accepted request: one gateway call, with [intent_params]. *)
Lemma create_payment_intent_accepted (b : PaymentBody) :
  amount_rejected host (pb_amount b) = false ->
  gateway_calls (Eff.trace (create_payment_intent host b)) = [intent_params host b].
Proof.
  intros H. unfold create_payment_intent. rewrite H.
  cbn. destruct (paymentIntents_create host (intent_params host b)); reflexivity.
Qed.

Lemma amount_rejected_number (x : JsNumber) :
  amount_rejected host (PNum x) = false <-> number_ge x 50.
Proof.
  destruct x as [q | negative]; [apply amount_rejected_num |].
  unfold amount_rejected, js_lt, truthy, number_ge; cbn [to_number negb orb].
  reflexivity.
Qed.

Lemma number_lt_not_ge (x : JsNumber) (n : Q) : number_lt x n -> ~ number_ge x n.
Proof.
  destruct x as [q | negative]; cbn.
  - intros Hlt Hge. exact (Qlt_not_le _ _ Hlt Hge).
  - intros -> H. discriminate H.
Qed.

Lemma round_number_ge_50 (x : JsNumber) :
  number_ge x 50 -> integer_ge (round_number x) 50.
Proof. destruct x as [q | negative]; cbn; [apply round_ge_50 | tauto]. Qed.

(** C2 (as amended).  An amount that is a number, finite or infinite, is
    accepted exactly when the amount itself, before rounding, is at least
    50; an accepted amount reaches the gateway once, as
    [Math.round(amount)], which is then at least 50: the nearest integer,
    ties upward, for a finite amount, and [Infinity] for [Infinity]; a
    refused amount never reaches the gateway. *)
Theorem amount_accepted_iff_raw_ge_50 (b : PaymentBody) (x : JsNumber) :
  pb_amount b = PNum x ->
  (amount_rejected host (pb_amount b) = false <-> number_ge x 50) /\
  (number_ge x 50 ->
     gateway_calls (Eff.trace (create_payment_intent host b)) = [intent_params host b] /\
     ip_amount (intent_params host b) = Some (round_number x) /\
     integer_ge (round_number x) 50) /\
  (number_lt x 50 ->
     gateway_calls (Eff.trace (create_payment_intent host b)) = []) /\
  (forall q : Q, x = Finite q -> round_number x = Int (Qfloor (q + (1 # 2)))) /\
  (forall negative, x = Infinity negative -> round_number x = IntInfinity negative).
Proof.
  intros Hx. rewrite Hx. split; [apply amount_rejected_number |]. split; [| split].
  - intros Hge. split; [| split].
    + apply create_payment_intent_accepted. rewrite Hx.
      now apply amount_rejected_number.
    + unfold intent_params; cbn [ip_amount]. rewrite Hx. reflexivity.
    + now apply round_number_ge_50.
  - intros Hlt. rewrite create_payment_intent_rejected; [reflexivity |].
    rewrite Hx. destruct (amount_rejected host (PNum x)) eqn:E; [reflexivity |].
    apply amount_rejected_number in E. now destruct (number_lt_not_ge x 50 Hlt).
  - split; intros ? ->; reflexivity.
Qed.

(** C3.  When [amount] is absent ([undefined] or [null]) or a number
    strictly below 50, minus infinity included, the handler answers 400
    with the minimum-amount message and does nothing else: no gateway call,
    no output. *)
Theorem invalid_amount_rejected_without_gateway_call (b : PaymentBody) :
  (pb_amount b = PUndefined \/ pb_amount b = PNull \/
   (exists q : Q, pb_amount b = PNum q /\ (q < 50)%Q) \/
   pb_amount b = PNum (Infinity true)) ->
  exists r,
    create_payment_intent host b = ([], Normal r) /\
    status r = 400 /\ (400 <= status r < 500) /\
    body r = BError "Le montant minimum est de 0.50€" None /\
    gateway_calls (Eff.trace (create_payment_intent host b)) = [].
Proof.
  intros H.
  assert (Hrej : amount_rejected host (pb_amount b) = true).
  { destruct H as [-> | [-> | [(q & -> & Hlt) | ->]]]; try reflexivity.
    destruct (amount_rejected host (PNum q)) eqn:E; [reflexivity |].
    apply amount_rejected_num in E. exfalso. exact (Qlt_not_le _ _ Hlt E). }
  rewrite (create_payment_intent_rejected b Hrej).
  eexists. split; [reflexivity |]. cbn. repeat split; lia.
Qed.

(** C6.  The metadata sent to the gateway is the caller's mapping with
    [integration_source] bound to ['qg3d-website']; every other key reads
    as in the caller's mapping. *)
Theorem metadata_forwarded_with_provenance_tag (b : PaymentBody) (m : Obj) :
  pb_metadata b = Some m ->
  amount_rejected host (pb_amount b) = false ->
  exists p,
    gateway_calls (Eff.trace (create_payment_intent host b)) = [p] /\
    ip_metadata p = <["integration_source" := PStr "qg3d-website"]> m /\
    ip_metadata p !! "integration_source" = Some (PStr "qg3d-website") /\
    (forall k, k <> "integration_source" -> ip_metadata p !! k = m !! k) /\
    (forall k v, k <> "integration_source" -> m !! k = Some v ->
                 ip_metadata p !! k = Some v).
Proof.
  intros Hm Hok. exists (intent_params host b).
  split; [now apply create_payment_intent_accepted |].
  assert (Hmeta : ip_metadata (intent_params host b)
                  = <["integration_source" := PStr "qg3d-website"]> m).
  { unfold intent_params, tag_metadata, metadata_of; cbn. now rewrite Hm. }
  rewrite Hmeta. split; [reflexivity |]. split; [apply lookup_insert_eq |].
  split.
  - intros k Hk. now apply lookup_insert_ne.
  - intros k v Hk Hv. rewrite lookup_insert_ne; [exact Hv | congruence].
Qed.

(** C10.  An accepted request reaches the gateway with currency ['eur']
    when the body has no [currency], and with the body's own [currency]
    otherwise. *)
Theorem currency_defaults_to_eur (b : PaymentBody) :
  amount_rejected host (pb_amount b) = false ->
  exists p,
    gateway_calls (Eff.trace (create_payment_intent host b)) = [p] /\
    (pb_currency b = PUndefined -> ip_currency p = PStr "eur") /\
    (pb_currency b <> PUndefined -> ip_currency p = pb_currency b).
Proof.
  intros Hok. exists (intent_params host b).
  split; [now apply create_payment_intent_accepted |].
  unfold intent_params, currency_of; cbn.
  split.
  - intros ->. reflexivity.
  - intros Hne. destruct (pb_currency b); congruence.
Qed.

End PaymentIntentProperties.

(** Without a [metadata] key the gateway receives the tag alone. *)
Lemma metadata_absent_only_tag (host : Host) (b : PaymentBody) :
  pb_metadata b = None ->
  ip_metadata (intent_params host b) = {[ "integration_source" := PStr "qg3d-website" ]}.
Proof. intros H. unfold intent_params, tag_metadata, metadata_of; cbn. now rewrite H. Qed.

(** C2, as stated, fails at 49.5: it rounds to 50, yet the request is
    refused with the minimum-amount message and the gateway is not called. *)
Lemma amount_49_5_rounds_to_50_but_is_rejected :
  Math_round TestHost.host (pb_amount TestHost.body_49_5) = Some (Int 50) /\
  (50 <= 50)%Z /\
  create_payment_intent TestHost.host TestHost.body_49_5
  = ([], Normal {| status := 400; body := BError min_amount_message None |}).
Proof. repeat split. lia. Qed.

Lemma amount_accepted_iff_raw_ge_50_witness :
  (pb_amount TestHost.body_50_5 = PNum (101 # 2) /\
   number_ge (Finite (101 # 2)) 50 /\
   ip_amount (intent_params TestHost.host TestHost.body_50_5) = Some (Int 51)) /\
  (pb_amount TestHost.body_infinity = PNum (Infinity false) /\
   number_ge (Infinity false) 50 /\
   gateway_calls (Eff.trace (create_payment_intent TestHost.host TestHost.body_infinity))
   = [intent_params TestHost.host TestHost.body_infinity] /\
   ip_amount (intent_params TestHost.host TestHost.body_infinity)
   = Some (IntInfinity false)).
Proof.
  assert (H : number_ge (Finite (101 # 2)) 50) by (cbn; unfold Qle; cbn; lia).
  split.
  - split; [reflexivity |]. split; [exact H |].
    destruct (amount_accepted_iff_raw_ge_50 TestHost.host TestHost.body_50_5
                (Finite (101 # 2)) eq_refl) as (_ & Hacc & _).
    destruct (Hacc H) as (_ & Hround & _). exact Hround.
  - split; [reflexivity |]. split; [reflexivity |].
    destruct (amount_accepted_iff_raw_ge_50 TestHost.host TestHost.body_infinity
                (Infinity false) eq_refl) as (_ & Hacc & _).
    destruct (Hacc eq_refl) as (Hcalls & Hround & _).
    split; [exact Hcalls | exact Hround].
Defined.

Lemma invalid_amount_rejected_without_gateway_call_witness :
  (exists q : Q, pb_amount TestHost.body_49_5 = PNum q /\ (q < 50)%Q) /\
  exists r,
    create_payment_intent TestHost.host TestHost.body_49_5 = ([], Normal r) /\
    status r = 400 /\ (400 <= status r < 500) /\
    body r = BError "Le montant minimum est de 0.50€" None /\
    gateway_calls (Eff.trace (create_payment_intent TestHost.host TestHost.body_49_5)) = [].
Proof.
  assert (H : exists q : Q, pb_amount TestHost.body_49_5 = PNum q /\ (q < 50)%Q).
  { exists (99 # 2). split; [reflexivity | unfold Qlt; cbn; lia]. }
  split; [exact H |].
  apply (invalid_amount_rejected_without_gateway_call TestHost.host TestHost.body_49_5).
  right. right. left. exact H.
Defined.

Lemma metadata_forwarded_with_provenance_tag_witness :
  pb_metadata TestHost.body_tagged = Some TestHost.caller_metadata /\
  amount_rejected TestHost.host (pb_amount TestHost.body_tagged) = false /\
  exists p,
    gateway_calls (Eff.trace (create_payment_intent TestHost.host TestHost.body_tagged)) = [p] /\
    ip_metadata p !! "integration_source" = Some (PStr "qg3d-website") /\
    ip_metadata p !! "cart" = Some (PStr "c-42").
Proof.
  split; [reflexivity |]. split; [reflexivity |].
  destruct (metadata_forwarded_with_provenance_tag TestHost.host TestHost.body_tagged
              TestHost.caller_metadata eq_refl eq_refl)
    as (p & Hcalls & _ & Htag & _ & Hkeep).
  exists p. split; [exact Hcalls |]. split; [exact Htag |].
  apply Hkeep; [discriminate | reflexivity].
Defined.

Lemma currency_defaults_to_eur_witness :
  amount_rejected TestHost.host (pb_amount TestHost.body_50_5) = false /\
  exists p,
    gateway_calls (Eff.trace (create_payment_intent TestHost.host TestHost.body_50_5)) = [p] /\
    (pb_currency TestHost.body_50_5 = PUndefined -> ip_currency p = PStr "eur") /\
    (pb_currency TestHost.body_50_5 <> PUndefined ->
     ip_currency p = pb_currency TestHost.body_50_5).
Proof.
  split; [reflexivity |].
  apply (currency_defaults_to_eur TestHost.host TestHost.body_50_5). reflexivity.
Defined.

(** ** Webhooks *)

Section WebhookProperties.

Variable host : Host.


Lemma event_kind_succeeded (t : string) :
  event_kind t = payment_succeeded <-> t = "payment_intent.succeeded".
Proof.
  unfold event_kind.
  destruct (String.eqb t "payment_intent.succeeded") eqn:E1.
  - apply String.eqb_eq in E1. tauto.
  - apply String.eqb_neq in E1.
    destruct (String.eqb t "payment_intent.payment_failed"); split; congruence.
Qed.

Lemma event_kind_other (t x : string) :
  event_kind t = other x <->
  t <> "payment_intent.succeeded" /\ t <> "payment_intent.payment_failed" /\ x = t.
Proof.
  unfold event_kind.
  destruct (String.eqb t "payment_intent.succeeded") eqn:E1;
    [apply String.eqb_eq in E1 | apply String.eqb_neq in E1].
  - split; [discriminate | tauto].
  - destruct (String.eqb t "payment_intent.payment_failed") eqn:E2;
      [apply String.eqb_eq in E2 | apply String.eqb_neq in E2].
    + split; [discriminate | tauto].
    + split; [intros [= ->]; tauto | intros (_ & _ & ->); reflexivity].
Qed.


(** What the handler does once [constructEvent] has returned an event,
    which takes a body of raw bytes: if the type selects the success case
    of the switch, the run is exactly one success line and the answer is
    200 [{received: true}]; if the type is unknown, the run is exactly one
    unhandled-type line naming the type, and the answer is again 200
    [{received: true}]. *)
Theorem webhook_dispatches_verified_event (req : WebhookRequest) (event : StripeEvent) :
  webhooks_constructEvent host (wh_body req) (wh_stripe_signature req)
    (process_env host "STRIPE_WEBHOOK_SECRET") = Normal event ->
  (event_kind (ev_type event) = payment_succeeded ->
   webhook host req
   = ([ConsoleLog [LVal (PStr "✅ Paiement réussi:");
                   LVal (get (ev_data_object event) "id")]],
      Normal {| status := 200; body := BReceived true |})) /\
  (forall x, event_kind (ev_type event) = other x ->
   webhook host req
   = ([ConsoleLog [LVal (PStr ("Événement non géré: " +:+ x))]],
      Normal {| status := 200; body := BReceived true |})).
Proof.
  intros H. unfold webhook. rewrite H. unfold dispatch_event. split.
  - intros Hk. apply event_kind_succeeded in Hk. rewrite Hk. reflexivity.
  - intros x Hk. apply event_kind_other in Hk. destruct Hk as (H1 & H2 & ->).
    apply String.eqb_neq in H1, H2. rewrite H1, H2. reflexivity.
Qed.

End WebhookProperties.

(** The gateway's type for a successful payment is
    [payment_intent.succeeded]; a type spelled [payment_succeeded] is an
    unknown one for the switch. *)
Example event_kind_literal_payment_succeeded :
  event_kind "payment_succeeded" = other "payment_succeeded".
Proof. reflexivity. Qed.


Lemma webhook_dispatches_verified_event_witness :
  (webhooks_constructEvent TestHost.host (wh_body TestHost.paid)
     (wh_stripe_signature TestHost.paid)
     (process_env TestHost.host "STRIPE_WEBHOOK_SECRET")
   = Normal {| ev_type := "payment_intent.succeeded";
               ev_data_object := {[ "id" := PStr "pi_1" ]} |} /\
   webhook TestHost.host TestHost.paid
   = ([ConsoleLog [LVal (PStr "✅ Paiement réussi:"); LVal (PStr "pi_1")]],
      Normal {| status := 200; body := BReceived true |})) /\
  (webhooks_constructEvent TestHost.host (wh_body TestHost.refunded)
     (wh_stripe_signature TestHost.refunded)
     (process_env TestHost.host "STRIPE_WEBHOOK_SECRET")
   = Normal {| ev_type := "charge.refunded";
               ev_data_object := {[ "id" := PStr "pi_1" ]} |} /\
   webhook TestHost.host TestHost.refunded
   = ([ConsoleLog [LVal (PStr "Événement non géré: charge.refunded")]],
      Normal {| status := 200; body := BReceived true |})).
Proof.
  split; (split; [reflexivity |]).
  - apply (webhook_dispatches_verified_event TestHost.host TestHost.paid _ eq_refl).
    reflexivity.
  - apply (webhook_dispatches_verified_event TestHost.host TestHost.refunded _ eq_refl).
    reflexivity.
Defined.

(** ** Strings and joined lines *)

Lemma append_cons (x : ascii) (a b : string) : String x a +:+ b = String x (a +:+ b).
Proof. reflexivity. Qed.

Lemma append_nil_l (a : string) : EmptyString +:+ a = a.
Proof. reflexivity. Qed.

Lemma append_assoc (a b c : string) : (a +:+ b) +:+ c = a +:+ b +:+ c.
Proof.
  induction a as [| x a IH]; [reflexivity |].
  rewrite !append_cons. now rewrite IH.
Qed.

Lemma append_nil_r (a : string) : a +:+ EmptyString = a.
Proof.
  induction a as [| x a IH]; [reflexivity |].
  rewrite append_cons. now rewrite IH.
Qed.

Lemma contains_refl (s : string) : contains s s.
Proof. exists EmptyString, EmptyString. now rewrite append_nil_l, append_nil_r. Qed.

Lemma contains_trans (a b c : string) : contains a b -> contains b c -> contains a c.
Proof.
  intros (p1 & q1 & ->) (p2 & q2 & ->).
  exists (p2 +:+ p1), (q1 +:+ q2). now rewrite !append_assoc.
Qed.

Lemma contains_append_l (a p s : string) : contains a s -> contains a (p +:+ s).
Proof.
  intros (p1 & q1 & ->). exists (p +:+ p1), q1. now rewrite !append_assoc.
Qed.

Lemma contains_append_r (a s q : string) : contains a s -> contains a (s +:+ q).
Proof.
  intros (p1 & q1 & ->). exists p1, (q1 +:+ q). now rewrite !append_assoc.
Qed.

Lemma concat_cons (sep x : string) (l : list string) :
  l <> [] -> String.concat sep (x :: l) = x +:+ sep +:+ String.concat sep l.
Proof. destruct l; [congruence | reflexivity]. Qed.

(** Joining around an element whose text ends in [y]. *)
Lemma concat_middle (sep x y : string) (l1 l2 : list string) :
  l2 <> [] ->
  String.concat sep (l1 ++ (x +:+ y) :: l2)
  = String.concat sep (l1 ++ [x]) +:+ y +:+ sep +:+ String.concat sep l2.
Proof.
  intros Hl2. induction l1 as [| a l1 IH].
  - cbn [app]. rewrite concat_cons by exact Hl2.
    change (String.concat sep [x]) with x. now rewrite append_assoc.
  - cbn [app]. rewrite !concat_cons by (now destruct l1).
    rewrite IH. now rewrite !append_assoc.
Qed.

(** Every joined element occurs in the result. *)
Lemma contains_concat (sep x : string) (l : list string) (i : nat) :
  l !! i = Some x -> contains x (String.concat sep l).
Proof.
  revert i. induction l as [| a l IH]; intros i Hi; [discriminate |].
  destruct l as [| b l].
  - destruct i; [| discriminate]. injection Hi as ->. apply contains_refl.
  - rewrite concat_cons by discriminate.
    destruct i as [| i].
    + injection Hi as ->. apply contains_append_r, contains_refl.
    + apply contains_append_l, contains_append_l. now apply (IH i).
Qed.

Lemma split_lines_single (a : string) :
  has_newline a = false -> split_lines a = [a].
Proof.
  induction a as [| c a IH]; [reflexivity |].
  cbn [has_newline split_lines].
  intros H. apply orb_false_elim in H as [Hc Ha].
  rewrite Hc, (IH Ha). reflexivity.
Qed.

Lemma split_lines_append (a s : string) :
  has_newline a = false -> split_lines (a +:+ nl +:+ s) = a :: split_lines s.
Proof.
  induction a as [| c a IH]; [reflexivity |].
  rewrite append_cons. cbn [has_newline split_lines].
  intros H. apply orb_false_elim in H as [Hc Ha].
  rewrite Hc, (IH Ha). reflexivity.
Qed.

(** Splitting a join gives the lines back when no line has a line break. *)
Lemma split_lines_concat (l : list string) :
  l <> [] -> Forall (fun a => has_newline a = false) l ->
  split_lines (String.concat nl l) = l.
Proof.
  induction l as [| a l IH]; [congruence |].
  intros _ Hall. apply Forall_cons in Hall as [Ha Hl].
  destruct l as [| b l].
  - now apply split_lines_single.
  - rewrite concat_cons by discriminate.
    rewrite split_lines_append by exact Ha.
    now rewrite IH.
Qed.

(** ** Order e-mails *)

Section OrderMailProperties.

Variable host : Host.

Lemma compose_normal (o : OrderData) (items : list Obj) (addr : Obj) (q : JsNumber) :
  od_items o = Some items -> od_shippingAddress o = Some addr -> od_total o = PNum q ->
  compose host o
  = Normal (customer_mail host o addr (Number_toFixed2 host q)
              (String.concat nl (map (item_line host) items)) (shipping_block host addr),
            admin_mail host o addr (Number_toFixed2 host q)
              (String.concat nl (map (item_line host) items)) (shipping_block host addr)).
Proof.
  intros Hi Ha Ht.
  unfold compose, items_list, shipping_address, customerEmail, adminEmail,
    address_of, total_toFixed2.
  rewrite Hi, Ha, Ht. reflexivity.
Qed.

Lemma compose_inv (o : OrderData) (cust adm : Mail) :
  compose host o = Normal (cust, adm) ->
  exists items addr q,
    od_items o = Some items /\ od_shippingAddress o = Some addr /\ od_total o = PNum q.
Proof.
  unfold compose, items_list, shipping_address, customerEmail, adminEmail,
    address_of, total_toFixed2.
  destruct (od_items o) as [items |]; [| discriminate].
  destruct (od_shippingAddress o) as [addr |]; [| discriminate].
  destruct (od_total o) as [| | | q |]; try discriminate.
  intros _. now exists items, addr, q.
Qed.

(** The run of the handler once both messages are built. *)
Lemma send_order_emails_composed (b : OrderBody) (o : OrderData) (cust adm : Mail) :
  ob_orderData b = Some o -> compose host o = Normal (cust, adm) ->
  send_order_emails host b
  = ([ConsoleLog [LVal (PStr "📧 Envoi des emails pour commande:");
                  LVal (od_orderNumber o)];
      SendMail cust; SendMail adm;
      ConsoleLog [LVal (PStr "✅ Email client:");
                  LVal (sent_label (fulfilled (sendMail host cust)))];
      ConsoleLog [LVal (PStr "✅ Email admin:");
                  LVal (sent_label (fulfilled (sendMail host adm)))]],
     Normal {| status := 200;
               body := BEmails true (fulfilled (sendMail host cust))
                                    (fulfilled (sendMail host adm)) |}).
Proof.
  intros Hb Hc. unfold send_order_emails. rewrite Hb, Hc. reflexivity.
Qed.

(** The run of the handler when building the messages throws. *)
Lemma send_order_emails_thrown (b : OrderBody) (o : OrderData) (e : JsError) :
  ob_orderData b = Some o -> compose host o = Throw e ->
  send_order_emails host b
  = ([ConsoleLog [LVal (PStr "📧 Envoi des emails pour commande:");
                  LVal (od_orderNumber o)];
      ConsoleError [LVal (PStr "❌ Erreur envoi emails:"); LError e]],
     Normal {| status := 500;
               body := BError "Erreur lors de l'envoi des emails" (Some (message e)) |}).
Proof.
  intros Hb Hc. unfold send_order_emails. rewrite Hb, Hc. reflexivity.
Qed.

Lemma customer_admin_distinct (o : OrderData) (cust adm : Mail) :
  compose host o = Normal (cust, adm) -> cust <> adm.
Proof.
  intros Hc. destruct (compose_inv o cust adm Hc) as (items & addr & q & Hi & Ha & Ht).
  rewrite (compose_normal o items addr q Hi Ha Ht) in Hc.
  injection Hc as <- <-. intros Heq.
  apply (f_equal mail_from) in Heq. discriminate Heq.
Qed.

(** C4.  Once the two messages are built, both are handed to the
    transport, customer first, and the answer is 200 with [success: true]
    and one flag per recipient that is exactly the outcome of that
    recipient's own send; in particular a failed customer send with a
    delivered admin send answers
    [{success: true, customerEmailSent: false, adminEmailSent: true}]. *)
Theorem send_order_emails_outcomes_independent
    (b : OrderBody) (o : OrderData) (cust adm : Mail) :
  ob_orderData b = Some o -> compose host o = Normal (cust, adm) ->
  sent_mails (Eff.trace (send_order_emails host b)) = [cust; adm] /\
  cust <> adm /\
  Eff.result (send_order_emails host b)
  = Normal {| status := 200;
              body := BEmails true (fulfilled (sendMail host cust))
                                   (fulfilled (sendMail host adm)) |} /\
  (forall e, sendMail host cust = Throw e -> sendMail host adm = Normal tt ->
     Eff.result (send_order_emails host b)
     = Normal {| status := 200; body := BEmails true false true |}).
Proof.
  intros Hb Hc. rewrite (send_order_emails_composed b o cust adm Hb Hc).
  split; [reflexivity |]. split; [exact (customer_admin_distinct o cust adm Hc) |].
  split; [reflexivity |].
  intros e Hcust Hadm. cbn. now rewrite Hcust, Hadm.
Qed.

(** C9.  Replacing the payment identifier of an order changes neither the
    customer message that is built nor the first message handed to the
    transport. *)
Theorem customer_message_independent_of_paymentId (o : OrderData) (p : JsPrim) :
  fst <$> compose host (with_paymentId o p) = fst <$> compose host o /\
  head (sent_mails (Eff.trace
          (send_order_emails host {| ob_orderData := Some (with_paymentId o p) |})))
  = head (sent_mails (Eff.trace
          (send_order_emails host {| ob_orderData := Some o |}))).
Proof.
  assert (Hfst : fst <$> compose host (with_paymentId o p) = fst <$> compose host o).
  { unfold compose, items_list, shipping_address, customerEmail, adminEmail,
      address_of, total_toFixed2.
    cbn [with_paymentId od_items od_shippingAddress od_total].
    destruct (od_items o) as [items |]; [| reflexivity].
    destruct (od_shippingAddress o) as [addr |]; [| reflexivity].
    destruct (od_total o) as [| | | q |]; reflexivity. }
  split; [exact Hfst |].
  destruct (compose host (with_paymentId o p)) as [[c1 a1] | e1] eqn:E1;
    destruct (compose host o) as [[c2 a2] | e2] eqn:E2;
    try discriminate Hfst.
  - injection Hfst as ->.
    rewrite (send_order_emails_composed {| ob_orderData := Some _ |} _ c2 a1 eq_refl E1).
    rewrite (send_order_emails_composed {| ob_orderData := Some _ |} _ c2 a2 eq_refl E2).
    reflexivity.
  - rewrite (send_order_emails_thrown {| ob_orderData := Some _ |} _ e1 eq_refl E1).
    rewrite (send_order_emails_thrown {| ob_orderData := Some _ |} _ e2 eq_refl E2).
    reflexivity.
Qed.

(** The line of an item does not read its [unitPrice]. *)
Lemma item_line_ignores_unitPrice (item : Obj) (v : JsPrim) :
  item_line host (<["unitPrice" := v]> item) = item_line host item.
Proof.
  unfold item_line, get. now rewrite !lookup_insert_ne by discriminate.
Qed.

Lemma items_list_empty (o : OrderData) :
  od_items o = Some [] -> items_list host o = Normal EmptyString.
Proof. intros H. unfold items_list. now rewrite H. Qed.

(** C7 (as amended).  For an order with at least one item, none of which
    renders with a line break, the item list has exactly one line per
    item, in the order of [items]; the line of an item is its [quantity],
    [x], a space, its [name], [ - ], its [price] and the euro sign. *)
Theorem items_list_one_line_per_item (o : OrderData) (items : list Obj) :
  od_items o = Some items ->
  items <> [] ->
  Forall (fun item => has_newline (item_line host item) = false) items ->
  exists s,
    items_list host o = Normal s /\
    length (split_lines s) = length items /\
    forall i item, items !! i = Some item ->
      split_lines s !! i
      = Some (to_string host (get item "quantity") +:+ "x "
                +:+ to_string host (get item "name") +:+ " - "
                +:+ to_string host (get item "price") +:+ "€").
Proof.
  intros Hi Hne Hnl.
  exists (String.concat nl (map (item_line host) items)).
  split; [unfold items_list; now rewrite Hi |].
  rewrite split_lines_concat.
  - split; [apply length_map |].
    intros i item Hitem. rewrite list_lookup_fmap, Hitem. reflexivity.
  - destruct items; [congruence | discriminate].
  - apply Forall_fmap. exact Hnl.
Qed.

Lemma admin_html_lines_split (o : OrderData) (addr : Obj) (t il sb : string) :
  admin_html_lines host o addr t il sb
  = take 39 (admin_html_lines host o addr t il sb)
      ++ ("            " +:+ notes_section host o)
      :: drop 40 (admin_html_lines host o addr t il sb).
Proof. reflexivity. Qed.

Lemma admin_html_around_notes (o : OrderData) (addr : Obj) (t il sb : string) :
  mail_html (admin_mail host o addr t il sb)
  = admin_before host o addr t il sb +:+ notes_section host o +:+ admin_after host o addr t il sb.
Proof.
  unfold admin_mail, admin_before, admin_after, mail_html.
  rewrite admin_html_lines_split at 1.
  apply concat_middle. discriminate.
Qed.

Lemma admin_html_payment_line (o : OrderData) (addr : Obj) (t il sb : string) :
  contains ("<p><strong>ID Paiement Stripe :</strong> "
              +:+ to_string host (js_or (od_paymentId o) (PStr "N/A")) +:+ "</p>")
           (mail_html (admin_mail host o addr t il sb)).
Proof.
  eapply contains_trans; [| apply (contains_concat nl _ _ 36); reflexivity].
  exists "            ", EmptyString. now rewrite append_nil_r.
Qed.

(** C8.  In the admin message of an order: the payment line shows the
    payment identifier when the order has one and [N/A] when it has none;
    the message is a fixed text around the notes, the same whatever the
    notes, with [<h3>Notes</h3><p>notes</p>] in between when the order has
    notes and nothing in between when it has none ([undefined], [null] or
    the empty string). *)
Theorem admin_message_payment_id_and_notes (o : OrderData) (cust adm : Mail) :
  compose host o = Normal (cust, adm) ->
  (truthy (od_paymentId o) = true ->
     contains ("<p><strong>ID Paiement Stripe :</strong> "
                 +:+ to_string host (od_paymentId o) +:+ "</p>") (mail_html adm)) /\
  (truthy (od_paymentId o) = false ->
     contains "<p><strong>ID Paiement Stripe :</strong> N/A</p>" (mail_html adm)) /\
  exists pre post,
    (truthy (od_orderNotes o) = true ->
       mail_html adm
       = pre +:+ ("<h3>Notes</h3><p>" +:+ to_string host (od_orderNotes o) +:+ "</p>")
             +:+ post) /\
    (truthy (od_orderNotes o) = false -> mail_html adm = pre +:+ post) /\
    (forall n, exists adm',
       compose host (with_orderNotes o n) = Normal (cust, adm') /\
       (truthy n = true ->
          mail_html adm'
          = pre +:+ ("<h3>Notes</h3><p>" +:+ to_string host n +:+ "</p>") +:+ post) /\
       (truthy n = false -> mail_html adm' = pre +:+ post)).
Proof.
  intros Hc. destruct (compose_inv o cust adm Hc) as (items & addr & q & Hi & Ha & Ht).
  rewrite (compose_normal o items addr q Hi Ha Ht) in Hc.
  injection Hc as <- <-.
  set (t := Number_toFixed2 host q).
  set (il := String.concat nl (map (item_line host) items)).
  set (sb := shipping_block host addr).
  split; [| split].
  - intros Hp. generalize (admin_html_payment_line o addr t il sb).
    unfold js_or. now rewrite Hp.
  - intros Hp. generalize (admin_html_payment_line o addr t il sb).
    unfold js_or. now rewrite Hp.
  - exists (admin_before host o addr t il sb), (admin_after host o addr t il sb).
    split; [| split].
    + intros Hn. rewrite admin_html_around_notes. unfold notes_section.
      now rewrite Hn.
    + intros Hn. rewrite admin_html_around_notes. unfold notes_section.
      now rewrite Hn.
    + intros n. exists (admin_mail host (with_orderNotes o n) addr t il sb).
      split; [exact (compose_normal (with_orderNotes o n) items addr q Hi Ha Ht) |].
      rewrite admin_html_around_notes. unfold notes_section.
      change (od_orderNotes (with_orderNotes o n)) with n.
      change (admin_before host (with_orderNotes o n) addr t il sb)
        with (admin_before host o addr t il sb).
      change (admin_after host (with_orderNotes o n) addr t il sb)
        with (admin_after host o addr t il sb).
      split; intros ->; reflexivity.
Qed.

End OrderMailProperties.

(** C7, as stated, fails on an item whose price is under [unitPrice]: the
    line does not show 12, it shows the missing [price] as [undefined]. *)
Lemma items_list_unitPrice_renders_undefined :
  od_items TestHost.order_unitPrice = Some [TestHost.vase_unitPrice] /\
  get TestHost.vase_unitPrice "unitPrice" = PNum 12 /\
  items_list TestHost.host TestHost.order_unitPrice = Normal "2x Vase - undefined€" /\
  items_list TestHost.host TestHost.order_unitPrice <> Normal "2x Vase - 12€".
Proof. repeat split. discriminate. Qed.

Lemma send_order_emails_outcomes_independent_witness :
  exists cust adm e,
    ob_orderData TestHost.order_body = Some TestHost.order /\
    compose TestHost.host TestHost.order = Normal (cust, adm) /\
    sendMail TestHost.host cust = Throw e /\
    sendMail TestHost.host adm = Normal tt /\
    Eff.result (send_order_emails TestHost.host TestHost.order_body)
    = Normal {| status := 200; body := BEmails true false true |}.
Proof.
  pose proof (compose_normal TestHost.host TestHost.order _ _ _ eq_refl eq_refl eq_refl)
    as Hc.
  eexists _, _, _. split; [reflexivity |]. split; [exact Hc |].
  split; [reflexivity |]. split; [reflexivity |].
  destruct (send_order_emails_outcomes_independent TestHost.host TestHost.order_body
              TestHost.order _ _ eq_refl Hc) as (_ & _ & _ & H).
  exact (H _ eq_refl eq_refl).
Defined.

Lemma items_list_one_line_per_item_witness :
  od_items TestHost.order = Some [TestHost.vase; TestHost.hook] /\
  [TestHost.vase; TestHost.hook] <> [] /\
  Forall (fun item => has_newline (item_line TestHost.host item) = false)
    [TestHost.vase; TestHost.hook] /\
  exists s,
    items_list TestHost.host TestHost.order = Normal s /\
    length (split_lines s) = 2 /\
    split_lines s !! 1 = Some "10x Crochet - 3€".
Proof.
  assert (Hnl : Forall (fun item => has_newline (item_line TestHost.host item) = false)
                  [TestHost.vase; TestHost.hook]).
  { repeat constructor. }
  split; [reflexivity |]. split; [discriminate |]. split; [exact Hnl |].
  destruct (items_list_one_line_per_item TestHost.host TestHost.order
              [TestHost.vase; TestHost.hook] eq_refl ltac:(discriminate) Hnl)
    as (s & Hs & Hlen & Hline).
  exists s. split; [exact Hs |]. split; [exact Hlen |].
  exact (Hline 1 TestHost.hook eq_refl).
Defined.

Lemma admin_message_payment_id_and_notes_witness :
  exists cust adm,
    compose TestHost.host TestHost.order = Normal (cust, adm) /\
    contains "<p><strong>ID Paiement Stripe :</strong> pi_1</p>" (mail_html adm) /\
    exists pre post,
      mail_html adm = pre +:+ post /\
      exists adm',
        compose TestHost.host (with_orderNotes TestHost.order (PStr "Fragile"))
        = Normal (cust, adm') /\
        mail_html adm' = pre +:+ "<h3>Notes</h3><p>Fragile</p>" +:+ post.
Proof.
  pose proof (compose_normal TestHost.host TestHost.order _ _ _ eq_refl eq_refl eq_refl)
    as Hc.
  eexists _, _. split; [exact Hc |].
  destruct (admin_message_payment_id_and_notes TestHost.host TestHost.order _ _ Hc)
    as (Hpid & _ & pre & post & _ & Hnone & Hall).
  split; [exact (Hpid eq_refl) |].
  exists pre, post. split; [exact (Hnone eq_refl) |].
  destruct (Hall (PStr "Fragile")) as (adm' & Hc' & Hsome & _).
  exists adm'. split; [exact Hc' |]. exact (Hsome eq_refl).
Defined.

(** ** Payment intents: outcomes of the handler *)

Section PaymentIntentOutcomes.

Variable host : Host.

Lemma round_integer (q : Q) (n : Z) :
  (q == inject_Z n)%Q -> Qfloor (q + (1 # 2)) = n.
Proof.
  intros Hq. rewrite Hq.
  unfold Qfloor, Qplus, inject_Z; cbn.
  symmetry. apply (Z.div_unique _ _ _ 1); lia.
Qed.

Lemma round_within_half (q : Q) :
  (inject_Z (Qfloor (q + (1 # 2))) <= q + (1 # 2))%Q /\
  (q + (1 # 2) < inject_Z (Qfloor (q + (1 # 2)) + 1))%Q.
Proof. split; [apply Qfloor_le | apply Qlt_floor]. Qed.

(** When the gateway refuses or cannot be reached, the request is answered
    500 with the gateway's message as [details], after one gateway call and
    one line on [console.error]. *)
Theorem gateway_failure_answers_500 (b : PaymentBody) (e : JsError) :
  amount_rejected host (pb_amount b) = false ->
  paymentIntents_create host (intent_params host b) = Throw e ->
  create_payment_intent host b
  = ([GatewayCreate (intent_params host b);
      ConsoleError [LVal (PStr "Erreur création PaymentIntent:"); LError e]],
     Normal {| status := 500;
               body := BError "Erreur lors de la création du paiement"
                              (Some (message e)) |}).
Proof.
  intros Hok He. unfold create_payment_intent. rewrite Hok. cbn. rewrite He.
  reflexivity.
Qed.

(** When the gateway creates the intent, the answer is 200 with the
    intent's client secret and identifier and nothing else, and the run is
    the one gateway call. *)
Theorem gateway_success_answers_intent (b : PaymentBody) (intent : PaymentIntent) :
  amount_rejected host (pb_amount b) = false ->
  paymentIntents_create host (intent_params host b) = Normal intent ->
  create_payment_intent host b
  = ([GatewayCreate (intent_params host b)],
     Normal {| status := 200;
               body := BIntent (client_secret intent) (pi_id intent) |}).
Proof.
  intros Hok Hi. unfold create_payment_intent. rewrite Hok. cbn. rewrite Hi.
  reflexivity.
Qed.


(** An amount that is an integer of at least 50 reaches the gateway
    unchanged. *)
Theorem integer_amount_forwarded_unchanged (b : PaymentBody) (q : Q) (n : Z) :
  pb_amount b = PNum q -> (q == inject_Z n)%Q -> (50 <= n)%Z ->
  gateway_calls (Eff.trace (create_payment_intent host b)) = [intent_params host b] /\
  ip_amount (intent_params host b) = Some (Int n).
Proof.
  intros Hb Hq Hn. split.
  - apply create_payment_intent_accepted. rewrite Hb.
    apply amount_rejected_num. rewrite Hq.
    change (inject_Z 50 <= inject_Z n)%Q. rewrite <- Zle_Qle. exact Hn.
  - unfold intent_params; cbn [ip_amount]. rewrite Hb.
    unfold Math_round, to_number, round_number. now rewrite (round_integer q n Hq).
Qed.

(** The amount sent to the gateway differs from an accepted finite amount
    by at most one half: it is the integer [n] with
    [n <= amount + 1/2 < n + 1].  The accepted amount [Infinity] is sent as
    [Infinity]. *)
Theorem forwarded_amount_within_half (b : PaymentBody) (x : JsNumber) :
  pb_amount b = PNum x -> number_ge x 50 ->
  exists r,
    gateway_calls (Eff.trace (create_payment_intent host b)) = [intent_params host b] /\
    ip_amount (intent_params host b) = Some r /\
    match x with
    | Finite q =>
        exists n : Z, r = Int n /\
          (inject_Z n <= q + (1 # 2))%Q /\ (q + (1 # 2) < inject_Z (n + 1))%Q
    | Infinity _ => r = IntInfinity false
    end.
Proof.
  intros Hb Hx. exists (round_number x). split; [| split].
  - apply create_payment_intent_accepted. rewrite Hb. now apply amount_rejected_number.
  - unfold intent_params; cbn [ip_amount]. now rewrite Hb.
  - destruct x as [q | negative]; cbn in *.
    + exists (Qfloor (q + (1 # 2))). split; [reflexivity | apply round_within_half].
    + now rewrite Hx.
Qed.

(** A non-empty string amount that does not read as a number passes the
    validation ([NaN < 50] is false) and the gateway is called with the
    amount [NaN]. *)
Theorem unparsable_amount_reaches_gateway (b : PaymentBody) (s : string) :
  pb_amount b = PStr s -> s <> EmptyString -> Number_ofString host s = None ->
  amount_rejected host (pb_amount b) = false /\
  gateway_calls (Eff.trace (create_payment_intent host b)) = [intent_params host b] /\
  ip_amount (intent_params host b) = None.
Proof.
  intros Hb Hs Hnan.
  assert (Hok : amount_rejected host (pb_amount b) = false).
  { rewrite Hb. unfold amount_rejected, js_lt, truthy; cbn. rewrite Hnan.
    apply String.eqb_neq in Hs. now rewrite Hs. }
  split; [exact Hok |]. split; [now apply create_payment_intent_accepted |].
  unfold intent_params; cbn [ip_amount]. rewrite Hb.
  unfold Math_round, to_number. now rewrite Hnan.
Qed.

End PaymentIntentOutcomes.

(** ** Webhooks: the other outcomes *)

Section WebhookOutcomes.

Variable host : Host.


End WebhookOutcomes.

(** ** The error middleware and the start-up lines *)

Section ProcessProperties.

Variable host : Host.

(** The error middleware answers 500 after one line on [console.error]; the
    answer carries the error's message as [details] when [NODE_ENV] is
    [development], and no [details] in every other case. *)
Theorem error_middleware_details_only_in_development (err : JsError) :
  exists r,
    error_middleware host err
    = ([ConsoleError [LVal (PStr "Erreur serveur:"); LError err]], Normal r) /\
    status r = 500 /\
    (env host !! "NODE_ENV" = Some "development" ->
       body r = BError "Erreur interne du serveur" (Some (message err))) /\
    (env host !! "NODE_ENV" <> Some "development" ->
       body r = BError "Erreur interne du serveur" None).
Proof.
  unfold error_middleware, process_env, strict_equal_string.
  eexists. split; [reflexivity |]. cbn [status body res_status_json].
  split; [reflexivity |]. split.
  - intros ->. reflexivity.
  - intros Hne. destruct (env host !! "NODE_ENV") as [s |]; [| reflexivity].
    destruct (String.eqb s "development") eqn:E; [| reflexivity].
    apply String.eqb_eq in E. congruence.
Qed.

(** With [NODE_ENV] unset or empty the start-up lines announce the
    environment [development], while the error middleware, which compares
    [NODE_ENV] itself, answers without [details]. *)
Theorem unset_NODE_ENV_announced_development_details_withheld (err : JsError) :
  env host !! "NODE_ENV" = None \/ env host !! "NODE_ENV" = Some EmptyString ->
  Eff.trace (listening host) !! 1
  = Some (ConsoleLog [LVal (PStr "📡 Environment: development")]) /\
  Eff.result (error_middleware host err)
  = Normal {| status := 500; body := BError "Erreur interne du serveur" None |}.
Proof.
  intros H. unfold listening, error_middleware, process_env, strict_equal_string.
  destruct H as [-> | ->]; split; reflexivity.
Qed.

(** The first start-up line names the port: the text of [PORT] when it is
    set and not empty, the number 3000 otherwise; three lines are printed
    in all, none of them on [console.error]. *)
Theorem listening_port_line :
  length (console_logs (Eff.trace (listening host))) = 3 /\
  length (Eff.trace (listening host)) = 3 /\
  (forall p, env host !! "PORT" = Some p -> p <> EmptyString ->
     Eff.trace (listening host) !! 0
     = Some (ConsoleLog [LVal (PStr ("🚀 Serveur QG3D démarré sur le port " +:+ p))])) /\
  (env host !! "PORT" = None \/ env host !! "PORT" = Some EmptyString ->
     Eff.trace (listening host) !! 0
     = Some (ConsoleLog [LVal (PStr ("🚀 Serveur QG3D démarré sur le port "
                                      +:+ Number_toString host 3000))])).
Proof.
  unfold listening, PORT, process_env, js_or.
  split; [reflexivity |]. split; [reflexivity |]. split.
  - intros p -> Hp. cbn [truthy]. apply String.eqb_neq in Hp. rewrite Hp. reflexivity.
  - intros [-> | ->]; reflexivity.
Qed.

End ProcessProperties.

(** ** Order e-mails: the other outcomes *)

Section OrderMailOutcomes.

Variable host : Host.

Lemma send_order_emails_missing (b : OrderBody) :
  ob_orderData b = None ->
  send_order_emails host b
  = ([], Normal {| status := 400;
                   body := BError "Données de commande manquantes" None |}).
Proof. intros H. unfold send_order_emails. rewrite H. reflexivity. Qed.

Lemma compose_throws_when_incomplete (o : OrderData) :
  (od_items o = None \/ od_shippingAddress o = None \/ forall q, od_total o <> PNum q) ->
  exists e, compose host o = Throw e.
Proof.
  unfold compose, items_list, shipping_address, customerEmail, adminEmail,
    address_of, total_toFixed2.
  intros [Hi | [Ha | Ht]].
  - rewrite Hi. eexists. reflexivity.
  - rewrite Ha. destruct (od_items o); eexists; reflexivity.
  - destruct (od_items o); [| eexists; reflexivity].
    destruct (od_shippingAddress o); [| eexists; reflexivity].
    destruct (od_total o) as [| | | q |]; try (eexists; reflexivity).
    now destruct (Ht q).
Qed.

(** A body without [orderData] is answered 400 and nothing is printed or
    sent. *)
Theorem missing_orderData_rejected (b : OrderBody) :
  ob_orderData b = None ->
  send_order_emails host b
  = ([], Normal {| status := 400;
                   body := BError "Données de commande manquantes" None |}).
Proof. intros H. unfold send_order_emails. rewrite H. reflexivity. Qed.

(** An order without [items], without [shippingAddress] or with a [total]
    that is not a number is answered 500 with the error's message as
    [details]; the order number is printed, the error goes to
    [console.error], and no mail is sent. *)
Theorem incomplete_order_answers_500_without_mail (b : OrderBody) (o : OrderData) :
  ob_orderData b = Some o ->
  (od_items o = None \/ od_shippingAddress o = None \/ forall q, od_total o <> PNum q) ->
  exists e,
    send_order_emails host b
    = ([ConsoleLog [LVal (PStr "📧 Envoi des emails pour commande:");
                    LVal (od_orderNumber o)];
        ConsoleError [LVal (PStr "❌ Erreur envoi emails:"); LError e]],
       Normal {| status := 500;
                 body := BError "Erreur lors de l'envoi des emails"
                                (Some (message e)) |}) /\
    sent_mails (Eff.trace (send_order_emails host b)) = [].
Proof.
  intros Hb Hbad. apply compose_throws_when_incomplete in Hbad as (e & He).
  exists e. rewrite (send_order_emails_thrown host b o e Hb He).
  split; reflexivity.
Qed.

(** The handler answers every request, with 200, 400 or 500; it hands
    either both messages or none to the transport, both exactly when it
    answers 200; it never calls the payment gateway. *)
Theorem send_order_emails_both_or_none (b : OrderBody) :
  exists r,
    Eff.result (send_order_emails host b) = Normal r /\
    (status r = 200 \/ status r = 400 \/ status r = 500) /\
    (status r = 200 ->
       exists cust adm, sent_mails (Eff.trace (send_order_emails host b)) = [cust; adm]) /\
    (status r <> 200 -> sent_mails (Eff.trace (send_order_emails host b)) = []) /\
    gateway_calls (Eff.trace (send_order_emails host b)) = [].
Proof.
  destruct (ob_orderData b) as [o |] eqn:Hb.
  - destruct (compose host o) as [[cust adm] | e] eqn:Hc.
    + rewrite (send_order_emails_composed host b o cust adm Hb Hc).
      eexists. split; [reflexivity |]. cbn.
      repeat split; try tauto; try (now intros; exfalso); eauto.
    + rewrite (send_order_emails_thrown host b o e Hb Hc).
      eexists. split; [reflexivity |]. cbn.
      repeat split; try tauto; try discriminate.
  - rewrite (send_order_emails_missing b Hb).
    eexists. split; [reflexivity |]. cbn.
    repeat split; try tauto; try discriminate.
Qed.

(** When both sends fail the answer is still 200 with [success: true]; the
    two flags are false and both failures are printed. *)
Theorem both_sends_failed_still_success
    (b : OrderBody) (o : OrderData) (cust adm : Mail) (e1 e2 : JsError) :
  ob_orderData b = Some o -> compose host o = Normal (cust, adm) ->
  sendMail host cust = Throw e1 -> sendMail host adm = Throw e2 ->
  send_order_emails host b
  = ([ConsoleLog [LVal (PStr "📧 Envoi des emails pour commande:");
                  LVal (od_orderNumber o)];
      SendMail cust; SendMail adm;
      ConsoleLog [LVal (PStr "✅ Email client:"); LVal (PStr "Échoué")];
      ConsoleLog [LVal (PStr "✅ Email admin:"); LVal (PStr "Échoué")]],
     Normal {| status := 200; body := BEmails true false false |}).
Proof.
  intros Hb Hc H1 H2. rewrite (send_order_emails_composed host b o cust adm Hb Hc).
  rewrite H1, H2. reflexivity.
Qed.

(** The customer message goes to the order's [customerEmail], the admin
    message to the shop's own mailbox; both subjects end with the order
    number and both are sent from the shop's address. *)
Theorem mail_recipients_and_subjects (o : OrderData) (cust adm : Mail) :
  compose host o = Normal (cust, adm) ->
  mail_to cust = od_customerEmail o /\
  mail_to adm = PStr "qg3dprint@gmail.com" /\
  mail_subject cust = "Confirmation de commande #" +:+ to_string host (od_orderNumber o) /\
  mail_subject adm = "🔔 Nouvelle commande #" +:+ to_string host (od_orderNumber o) /\
  mail_from cust = dq +:+ "QG3D" +:+ dq +:+ " <qg3dprint@gmail.com>" /\
  mail_from adm = dq +:+ "QG3D Notifications" +:+ dq +:+ " <qg3dprint@gmail.com>".
Proof.
  intros Hc. destruct (compose_inv host o cust adm Hc) as (items & addr & q & Hi & Ha & Ht).
  rewrite (compose_normal host o items addr q Hi Ha Ht) in Hc.
  injection Hc as <- <-. repeat split.
Qed.

(** Replacing the notes of an order changes neither whether the messages
    can be built nor the customer message: the notes reach the admin only. *)
Theorem customer_message_independent_of_orderNotes (o : OrderData) (n : JsPrim) :
  fst <$> compose host (with_orderNotes o n) = fst <$> compose host o.
Proof.
  unfold compose, items_list, shipping_address, customerEmail, adminEmail,
    address_of, total_toFixed2.
  cbn [with_orderNotes od_items od_shippingAddress od_total].
  destruct (od_items o) as [items |]; [| reflexivity].
  destruct (od_shippingAddress o) as [addr |]; [| reflexivity].
  destruct (od_total o) as [| | | q |]; reflexivity.
Qed.

Lemma pre_line_contains (indent text : string) :
  contains ("<pre>" +:+ text +:+ "</pre>") (indent +:+ "<pre>" +:+ text +:+ "</pre>").
Proof. exists indent, EmptyString. now rewrite append_nil_r. Qed.

(** Both messages show the same item list and the same address block, each
    inside a [<pre>] element, and the same total with two decimals. *)
Theorem messages_show_items_address_total (o : OrderData) (cust adm : Mail) :
  compose host o = Normal (cust, adm) ->
  exists il sb q,
    items_list host o = Normal il /\
    shipping_address host o = Normal sb /\
    od_total o = PNum q /\
    contains ("<pre>" +:+ il +:+ "</pre>") (mail_html cust) /\
    contains ("<pre>" +:+ il +:+ "</pre>") (mail_html adm) /\
    contains ("<pre>" +:+ sb +:+ "</pre>") (mail_html cust) /\
    contains ("<pre>" +:+ sb +:+ "</pre>") (mail_html adm) /\
    contains (Number_toFixed2 host q +:+ "€") (mail_html cust) /\
    contains (Number_toFixed2 host q +:+ "€") (mail_html adm).
Proof.
  intros Hc. destruct (compose_inv host o cust adm Hc) as (items & addr & q & Hi & Ha & Ht).
  rewrite (compose_normal host o items addr q Hi Ha Ht) in Hc.
  injection Hc as <- <-.
  exists (String.concat nl (map (item_line host) items)), (shipping_block host addr), q.
  split; [unfold items_list; now rewrite Hi |].
  split; [unfold shipping_address, address_of; now rewrite Ha |].
  split; [exact Ht |].
  unfold customer_mail, admin_mail, mail_html.
  repeat split.
  - eapply contains_trans; [| apply (contains_concat nl _ _ 33); reflexivity].
    apply (pre_line_contains "                ").
  - eapply contains_trans; [| apply (contains_concat nl _ _ 30); reflexivity].
    apply (pre_line_contains "            ").
  - eapply contains_trans; [| apply (contains_concat nl _ _ 36); reflexivity].
    apply (pre_line_contains "                ").
  - eapply contains_trans; [| apply (contains_concat nl _ _ 33); reflexivity].
    apply (pre_line_contains "            ").
  - eapply contains_trans; [| apply (contains_concat nl _ _ 30); reflexivity].
    exists "                <p><strong>Montant total :</strong> ", "</p>".
    now rewrite append_assoc.
  - eapply contains_trans; [| apply (contains_concat nl _ _ 37); reflexivity].
    exists "            <p><strong>Montant :</strong> ", "</p>".
    now rewrite append_assoc.
Qed.

(** The links of both messages start with [FRONTEND_URL] when it is set and
    not empty, and with [http://localhost:8000] otherwise. *)
Theorem messages_link_to_frontend (o : OrderData) (cust adm : Mail) :
  compose host o = Normal (cust, adm) ->
  contains ("<a href=" +:+ dq +:+ frontend_url host +:+ "/profile.html" +:+ dq)
           (mail_html cust) /\
  contains ("<a href=" +:+ dq +:+ frontend_url host +:+ "/admin.html" +:+ dq)
           (mail_html adm) /\
  (forall u, env host !! "FRONTEND_URL" = Some u -> u <> EmptyString ->
     frontend_url host = u) /\
  (env host !! "FRONTEND_URL" = None \/ env host !! "FRONTEND_URL" = Some EmptyString ->
     frontend_url host = "http://localhost:8000").
Proof.
  intros Hc. destruct (compose_inv host o cust adm Hc) as (items & addr & q & Hi & Ha & Ht).
  rewrite (compose_normal host o items addr q Hi Ha Ht) in Hc.
  injection Hc as <- <-.
  unfold customer_mail, admin_mail, mail_html.
  split; [| split; [| split]].
  - eapply contains_trans; [| apply (contains_concat nl _ _ 41); reflexivity].
    exists "            ",
      (" class=" +:+ dq +:+ "button" +:+ dq +:+ ">Suivre ma commande</a>").
    rewrite !append_assoc. reflexivity.
  - eapply contains_trans; [| apply (contains_concat nl _ _ 42); reflexivity].
    exists "        <p>", ">Accéder à l'interface admin</a></p>".
    rewrite !append_assoc. reflexivity.
  - intros u Hu Hne. unfold frontend_url, process_env, js_or. rewrite Hu.
    cbn [truthy]. apply String.eqb_neq in Hne. now rewrite Hne.
  - intros [Hu | Hu]; unfold frontend_url, process_env, js_or; now rewrite Hu.
Qed.

(** A key of an item other than [quantity], [name] and [price] has no
    effect on the item's line, whether it is set or removed. *)
Theorem item_line_reads_three_keys (item : Obj) (k : string) (v : JsPrim) :
  k <> "quantity" -> k <> "name" -> k <> "price" ->
  item_line host (<[k := v]> item) = item_line host item /\
  item_line host (delete k item) = item_line host item.
Proof.
  intros Hq Hn Hp. unfold item_line, get.
  rewrite !lookup_insert_ne, !lookup_delete_ne by congruence.
  split; reflexivity.
Qed.

End OrderMailOutcomes.

(** ** The outcomes on the test data *)

Lemma gateway_failure_answers_500_witness :
  amount_rejected TestHost.host (pb_amount TestCases.body_text_amount) = false /\
  paymentIntents_create TestHost.host (intent_params TestHost.host TestCases.body_text_amount)
  = Throw (Err "Invalid integer: NaN") /\
  Eff.result (create_payment_intent TestHost.host TestCases.body_text_amount)
  = Normal {| status := 500;
              body := BError "Erreur lors de la création du paiement"
                             (Some "Invalid integer: NaN") |}.
Proof.
  split; [reflexivity |]. split; [reflexivity |].
  rewrite (gateway_failure_answers_500 TestHost.host TestCases.body_text_amount
             (Err "Invalid integer: NaN") eq_refl eq_refl).
  reflexivity.
Defined.

Lemma gateway_success_answers_intent_witness :
  amount_rejected TestHost.host (pb_amount TestHost.body_50_5) = false /\
  paymentIntents_create TestHost.host (intent_params TestHost.host TestHost.body_50_5)
  = Normal {| client_secret := PStr "pi_1_secret_2"; pi_id := PStr "pi_1" |} /\
  Eff.result (create_payment_intent TestHost.host TestHost.body_50_5)
  = Normal {| status := 200; body := BIntent (PStr "pi_1_secret_2") (PStr "pi_1") |}.
Proof.
  split; [reflexivity |]. split; [reflexivity |].
  rewrite (gateway_success_answers_intent TestHost.host TestHost.body_50_5
             {| client_secret := PStr "pi_1_secret_2"; pi_id := PStr "pi_1" |}
             eq_refl eq_refl).
  reflexivity.
Defined.

Lemma integer_amount_forwarded_unchanged_witness :
  pb_amount TestCases.body_1200 = PNum (inject_Z 1200) /\
  (inject_Z 1200 == inject_Z 1200)%Q /\ (50 <= 1200)%Z /\
  ip_amount (intent_params TestHost.host TestCases.body_1200) = Some (Int 1200).
Proof.
  split; [reflexivity |]. split; [reflexivity |]. split; [lia |].
  apply (integer_amount_forwarded_unchanged TestHost.host TestCases.body_1200
           (inject_Z 1200) 1200 eq_refl); [reflexivity | lia].
Defined.

Lemma forwarded_amount_within_half_witness :
  (pb_amount TestHost.body_50_5 = PNum (101 # 2) /\
   number_ge (Finite (101 # 2)) 50 /\
   exists n : Z,
     ip_amount (intent_params TestHost.host TestHost.body_50_5) = Some (Int n) /\
     (inject_Z n <= (101 # 2) + (1 # 2))%Q /\
     ((101 # 2) + (1 # 2) < inject_Z (n + 1))%Q) /\
  (pb_amount TestHost.body_infinity = PNum (Infinity false) /\
   number_ge (Infinity false) 50 /\
   ip_amount (intent_params TestHost.host TestHost.body_infinity)
   = Some (IntInfinity false)).
Proof.
  assert (H : number_ge (Finite (101 # 2)) 50) by (cbn; unfold Qle; cbn; lia).
  split.
  - split; [reflexivity |]. split; [exact H |].
    destruct (forwarded_amount_within_half TestHost.host TestHost.body_50_5
                (Finite (101 # 2)) eq_refl H) as (r & _ & Hr & n & -> & Hlo & Hhi).
    exists n. split; [exact Hr |]. split; [exact Hlo | exact Hhi].
  - split; [reflexivity |]. split; [reflexivity |].
    destruct (forwarded_amount_within_half TestHost.host TestHost.body_infinity
                (Infinity false) eq_refl eq_refl) as (r & _ & Hr & ->).
    exact Hr.
Defined.

Lemma unparsable_amount_reaches_gateway_witness :
  pb_amount TestCases.body_text_amount = PStr "douze" /\
  "douze" <> EmptyString /\
  Number_ofString TestHost.host "douze" = None /\
  ip_amount (intent_params TestHost.host TestCases.body_text_amount) = None.
Proof.
  split; [reflexivity |]. split; [discriminate |]. split; [reflexivity |].
  apply (unparsable_amount_reaches_gateway TestHost.host TestCases.body_text_amount
           "douze" eq_refl); [discriminate | reflexivity].
Defined.

Lemma error_middleware_details_only_in_development_witness :
  env TestCases.host_production !! "NODE_ENV" <> Some "development" /\
  Eff.result (error_middleware TestCases.host_production (Err "boom"))
  = Normal {| status := 500; body := BError "Erreur interne du serveur" None |}.
Proof.
  assert (H : env TestCases.host_production !! "NODE_ENV" <> Some "development")
    by discriminate.
  split; [exact H |].
  destruct (error_middleware_details_only_in_development TestCases.host_production
              (Err "boom")) as (r & Hrun & Hstatus & _ & Hnone).
  rewrite Hrun. unfold Eff.result; cbn [snd]. f_equal.
  destruct r as [st bd]. cbn in Hstatus. specialize (Hnone H). cbn in Hnone.
  now rewrite Hstatus, Hnone.
Defined.

Lemma unset_NODE_ENV_announced_development_details_withheld_witness :
  env TestHost.host !! "NODE_ENV" = None /\
  Eff.trace (listening TestHost.host) !! 1
  = Some (ConsoleLog [LVal (PStr "📡 Environment: development")]) /\
  Eff.result (error_middleware TestHost.host (Err "boom"))
  = Normal {| status := 500; body := BError "Erreur interne du serveur" None |}.
Proof.
  split; [reflexivity |].
  apply (unset_NODE_ENV_announced_development_details_withheld TestHost.host (Err "boom")).
  left. reflexivity.
Defined.

Lemma listening_port_line_witness :
  env TestCases.host_production !! "PORT" = Some "8080" /\
  "8080" <> EmptyString /\
  Eff.trace (listening TestCases.host_production) !! 0
  = Some (ConsoleLog [LVal (PStr "🚀 Serveur QG3D démarré sur le port 8080")]).
Proof.
  split; [reflexivity |]. split; [discriminate |].
  destruct (listening_port_line TestCases.host_production) as (_ & _ & Hset & _).
  apply (Hset "8080"); [reflexivity | discriminate].
Defined.

Lemma missing_orderData_rejected_witness :
  ob_orderData {| ob_orderData := None |} = None /\
  send_order_emails TestHost.host {| ob_orderData := None |}
  = ([], Normal {| status := 400;
                   body := BError "Données de commande manquantes" None |}).
Proof.
  split; [reflexivity |].
  apply (missing_orderData_rejected TestHost.host {| ob_orderData := None |}).
  reflexivity.
Defined.

Lemma incomplete_order_answers_500_without_mail_witness :
  ob_orderData {| ob_orderData := Some TestCases.order_bare |} = Some TestCases.order_bare /\
  od_items TestCases.order_bare = None /\
  exists e,
    Eff.result (send_order_emails TestHost.host {| ob_orderData := Some TestCases.order_bare |})
    = Normal {| status := 500;
                body := BError "Erreur lors de l'envoi des emails" (Some (message e)) |} /\
    sent_mails (Eff.trace
      (send_order_emails TestHost.host {| ob_orderData := Some TestCases.order_bare |})) = [].
Proof.
  split; [reflexivity |]. split; [reflexivity |].
  destruct (incomplete_order_answers_500_without_mail TestHost.host
              {| ob_orderData := Some TestCases.order_bare |} TestCases.order_bare
              eq_refl (or_introl eq_refl)) as (e & Hrun & Hnone).
  exists e. split; [now rewrite Hrun | exact Hnone].
Defined.

Lemma both_sends_failed_still_success_witness :
  exists cust adm,
    compose TestCases.host_down TestHost.order = Normal (cust, adm) /\
    sendMail TestCases.host_down cust = Throw (Err "connect ECONNREFUSED") /\
    sendMail TestCases.host_down adm = Throw (Err "connect ECONNREFUSED") /\
    Eff.result (send_order_emails TestCases.host_down TestHost.order_body)
    = Normal {| status := 200; body := BEmails true false false |}.
Proof.
  pose proof (compose_normal TestCases.host_down TestHost.order _ _ _
                eq_refl eq_refl eq_refl) as Hc.
  eexists _, _. split; [exact Hc |]. split; [reflexivity |]. split; [reflexivity |].
  rewrite (both_sends_failed_still_success TestCases.host_down TestHost.order_body
             TestHost.order _ _ _ _ eq_refl Hc eq_refl eq_refl).
  reflexivity.
Defined.

Lemma mail_recipients_and_subjects_witness :
  exists cust adm,
    compose TestHost.host TestHost.order = Normal (cust, adm) /\
    mail_to cust = PStr "ada@example.org" /\
    mail_to adm = PStr "qg3dprint@gmail.com" /\
    mail_subject cust = "Confirmation de commande #QG-17".
Proof.
  pose proof (compose_normal TestHost.host TestHost.order _ _ _ eq_refl eq_refl eq_refl)
    as Hc.
  eexists _, _. split; [exact Hc |].
  destruct (mail_recipients_and_subjects TestHost.host TestHost.order _ _ Hc)
    as (Hto & Hadm & Hsub & _).
  split; [exact Hto |]. split; [exact Hadm | exact Hsub].
Defined.

Lemma messages_show_items_address_total_witness :
  exists cust adm,
    compose TestHost.host TestHost.order = Normal (cust, adm) /\
    exists il sb q,
      items_list TestHost.host TestHost.order = Normal il /\
      shipping_address TestHost.host TestHost.order = Normal sb /\
      od_total TestHost.order = PNum q /\
      contains ("<pre>" +:+ il +:+ "</pre>") (mail_html cust) /\
      contains ("<pre>" +:+ il +:+ "</pre>") (mail_html adm) /\
      contains (Number_toFixed2 TestHost.host q +:+ "€") (mail_html cust).
Proof.
  pose proof (compose_normal TestHost.host TestHost.order _ _ _ eq_refl eq_refl eq_refl)
    as Hc.
  eexists _, _. split; [exact Hc |].
  destruct (messages_show_items_address_total TestHost.host TestHost.order _ _ Hc)
    as (il & sb & q & Hil & Hsb & Hq & H1 & H2 & _ & _ & H5 & _).
  exists il, sb, q. repeat split; assumption.
Defined.

Lemma messages_link_to_frontend_witness :
  exists cust adm,
    compose TestCases.host_production TestHost.order = Normal (cust, adm) /\
    env TestCases.host_production !! "FRONTEND_URL" = Some "https://qg3d.example" /\
    frontend_url TestCases.host_production = "https://qg3d.example" /\
    contains ("<a href=" +:+ dq +:+ frontend_url TestCases.host_production
                +:+ "/profile.html" +:+ dq) (mail_html cust).
Proof.
  pose proof (compose_normal TestCases.host_production TestHost.order _ _ _
                eq_refl eq_refl eq_refl) as Hc.
  eexists _, _. split; [exact Hc |]. split; [reflexivity |].
  destruct (messages_link_to_frontend TestCases.host_production TestHost.order _ _ Hc)
    as (Hlink & _ & Hset & _).
  split; [apply Hset; [reflexivity | discriminate] | exact Hlink].
Defined.

Lemma item_line_reads_three_keys_witness :
  "sku" <> "quantity" /\ "sku" <> "name" /\ "sku" <> "price" /\
  item_line TestHost.host TestCases.vase_sku = item_line TestHost.host TestHost.vase.
Proof.
  split; [discriminate |]. split; [discriminate |]. split; [discriminate |].
  apply (item_line_reads_three_keys TestHost.host TestHost.vase "sku" (PStr "V-1"));
    discriminate.
Defined.

(** ** The webhook route as wired *)

Section WebhookRouting.

Variable host : Host.

(** After [express.json()], [express.raw()] never stores the bytes: either
    the JSON parser has read the body already, or there is nothing it
    would read. *)
Lemma express_raw_after_json (r : HttpRequest) (st : BodyState) :
  express_json host r no_body = Normal st ->
  exists v, express_raw r st = Normal st /\ req_body st = Parsed v.
Proof.
  unfold express_json, express_raw, body_parser; cbn [no_body req_body_read].
  destruct (http_payload r) as [bytes |].
  - destruct (http_json r).
    + destruct (String.eqb bytes EmptyString).
      * intros [= <-]. cbn. eauto.
      * destruct (JSON_parse host bytes) as [v | e]; [| discriminate].
        intros [= <-]. cbn. eauto.
    + intros [= <-]. cbn. eauto.
  - intros [= <-]. cbn. eauto.
Qed.

Lemma webhook_route_cases (r : HttpRequest) :
  (exists err, express_json host r no_body = Throw err /\
               webhook_route host r = error_middleware host err) \/
  (exists v, webhook_route host r
             = webhook host {| wh_body := Parsed v;
                               wh_stripe_signature := http_stripe_signature r |}).
Proof.
  unfold webhook_route.
  destruct (express_json host r no_body) as [st | err] eqn:E.
  - right. destruct (express_raw_after_json r st E) as (v & -> & Hv).
    exists v. now rewrite Hv.
  - left. eauto.
Qed.

(** With a gateway library that refuses a parsed payload, no request gets
    through the route to the event switch: nothing is printed with
    [console.log]; the answer is 400 with the verification message, or the
    500 of the error middleware when the JSON body does not parse. *)
Theorem webhook_route_never_dispatches (r : HttpRequest) :
  sdk_requires_raw_body host ->
  exists resp,
    Eff.result (webhook_route host r) = Normal resp /\
    console_logs (Eff.trace (webhook_route host r)) = [] /\
    ((status resp = 400 /\ exists e, body resp = BText ("Webhook Error: " +:+ message e)) \/
     (status resp = 500 /\ http_json r = true /\
      exists bytes, http_payload r = Some bytes /\
                    fulfilled (JSON_parse host bytes) = false)).
Proof.
  intros Hsdk.
  destruct (webhook_route_cases r) as [(err & Hparse & ->) | (v & ->)].
  - unfold error_middleware. eexists. split; [reflexivity |].
    split; [reflexivity |]. right. split; [reflexivity |].
    revert Hparse. unfold express_json, body_parser; cbn [no_body req_body_read].
    destruct (http_payload r) as [bytes |]; [| discriminate].
    destruct (http_json r); [| discriminate].
    destruct (String.eqb bytes EmptyString); [discriminate |].
    destruct (JSON_parse host bytes) as [v | e] eqn:Ev; [discriminate |].
    intros _. split; [reflexivity |]. exists bytes. split; [reflexivity |].
    now rewrite Ev.
  - unfold webhook; cbn [wh_body wh_stripe_signature].
    destruct (Hsdk v (http_stripe_signature r) (process_env host "STRIPE_WEBHOOK_SECRET"))
      as (e & ->).
    eexists. split; [reflexivity |]. split; [reflexivity |].
    left. split; [reflexivity |]. exists e. reflexivity.
Qed.

(** C5 (the code against the claim).  A delivery with the JSON content
    type whose signature verifies over the bytes of its body and whose
    event has the success type is answered 400: [express.json()] has
    parsed the body before the route's [express.raw()] could keep the
    bytes, so [constructEvent] is given the parsed value and, with a
    gateway library that refuses one, throws.  The success line is not
    printed; the run is the one [console.error] of the [catch] block. *)
Theorem signed_payment_succeeded_delivery_refused
    (r : HttpRequest) (bytes : string) (event : StripeEvent) :
  sdk_requires_raw_body host ->
  http_json r = true -> http_payload r = Some bytes ->
  fulfilled (JSON_parse host bytes) = true ->
  webhooks_constructEvent host (Buffer bytes) (http_stripe_signature r)
    (process_env host "STRIPE_WEBHOOK_SECRET") = Normal event ->
  event_kind (ev_type event) = payment_succeeded ->
  exists e,
    webhook_route host r
    = ([ConsoleError [LVal (PStr "Webhook signature verification failed:");
                      LVal (PStr (message e))]],
       Normal {| status := 400; body := BText ("Webhook Error: " +:+ message e) |}) /\
    console_logs (Eff.trace (webhook_route host r)) = [] /\
    ~ In (ConsoleLog [LVal (PStr "✅ Paiement réussi:");
                      LVal (get (ev_data_object event) "id")])
         (Eff.trace (webhook_route host r)).
Proof.
  intros Hsdk Hjson Hbytes Hparse _ _.
  assert (Hbody : exists v, webhook_route host r
            = webhook host {| wh_body := Parsed v;
                              wh_stripe_signature := http_stripe_signature r |}).
  { destruct (webhook_route_cases r) as [(err & Herr & _) | H];
      [| exact H].
    exfalso. revert Herr.
    unfold express_json, body_parser; cbn [no_body req_body_read].
    rewrite Hbytes, Hjson.
    destruct (String.eqb bytes EmptyString); [discriminate |].
    destruct (JSON_parse host bytes); [discriminate | discriminate Hparse]. }
  destruct Hbody as (v & ->).
  unfold webhook; cbn [wh_body wh_stripe_signature].
  destruct (Hsdk v (http_stripe_signature r) (process_env host "STRIPE_WEBHOOK_SECRET"))
    as (e & ->).
  exists e. split; [reflexivity |]. split; [reflexivity |].
  cbn. intros [H | []]. discriminate H.
Qed.

(** Whatever the request, the route either hands the parse error of
    [express.json()] to the error middleware, or runs the handler on a body
    that is a parsed value: the handler never receives the bytes of the
    body. *)
Theorem webhook_route_passes_parsed_body (r : HttpRequest) :
  (exists err, express_json host r no_body = Throw err /\
               webhook_route host r = error_middleware host err) \/
  (exists v, webhook_route host r
             = webhook host {| wh_body := Parsed v;
                               wh_stripe_signature := http_stripe_signature r |}).
Proof. exact (webhook_route_cases r). Qed.

End WebhookRouting.

Lemma test_sdk_requires_raw_body : sdk_requires_raw_body TestHost.host.
Proof. intros v sig secret. eexists. reflexivity. Qed.

Lemma webhook_route_never_dispatches_witness :
  sdk_requires_raw_body TestHost.host /\
  exists resp,
    Eff.result (webhook_route TestHost.host TestCases.delivery) = Normal resp /\
    console_logs (Eff.trace (webhook_route TestHost.host TestCases.delivery)) = [] /\
    status resp = 400.
Proof.
  split; [exact test_sdk_requires_raw_body |].
  destruct (webhook_route_never_dispatches TestHost.host TestCases.delivery
              test_sdk_requires_raw_body) as (resp & Hres & Hlogs & Hstatus).
  exists resp. split; [exact Hres |]. split; [exact Hlogs |].
  destruct Hstatus as [(H & _) | (_ & _ & bytes & Hb & Hp)]; [exact H |].
  injection Hb as <-. discriminate Hp.
Defined.

Lemma signed_payment_succeeded_delivery_refused_witness :
  sdk_requires_raw_body TestHost.host /\
  http_json TestCases.delivery = true /\
  http_payload TestCases.delivery = Some "{payment_intent.succeeded}" /\
  fulfilled (JSON_parse TestHost.host "{payment_intent.succeeded}") = true /\
  webhooks_constructEvent TestHost.host (Buffer "{payment_intent.succeeded}")
    (http_stripe_signature TestCases.delivery)
    (process_env TestHost.host "STRIPE_WEBHOOK_SECRET")
  = Normal {| ev_type := "payment_intent.succeeded";
              ev_data_object := {[ "id" := PStr "pi_1" ]} |} /\
  event_kind "payment_intent.succeeded" = payment_succeeded /\
  exists e,
    Eff.result (webhook_route TestHost.host TestCases.delivery)
    = Normal {| status := 400; body := BText ("Webhook Error: " +:+ message e) |} /\
    console_logs (Eff.trace (webhook_route TestHost.host TestCases.delivery)) = [].
Proof.
  split; [exact test_sdk_requires_raw_body |].
  split; [reflexivity |]. split; [reflexivity |]. split; [reflexivity |].
  split; [reflexivity |]. split; [reflexivity |].
  destruct (signed_payment_succeeded_delivery_refused TestHost.host TestCases.delivery
              "{payment_intent.succeeded}" _ test_sdk_requires_raw_body
              eq_refl eq_refl eq_refl eq_refl eq_refl) as (e & Hrun & Hlogs & _).
  exists e. split; [now rewrite Hrun | exact Hlogs].
Defined.
